(** * FancyZones editor parameters: the snapshot written by [EditorParameters::Save]

    A shallow embedding of
    [src/modules/fancyzones/FancyZonesLib/EditorParameters.cpp]
    and the properties of the snapshot it hands to the zones editor. *)

From Stdlib Require Import ZArith QArith Qround SpecFloat Lia.
From stdpp Require Import gmap strings list pretty.

Local Open Scope Z_scope.

(** ** Machine integers

    [int] and [LONG] are 32-bit two's complement; [UINT] and [DWORD] are
    32-bit unsigned.  Values are kept in [Z]; an operation whose C++ result
    is stored in an [int] is wrapped to the signed range, which is what the
    compiled code computes. *)

Definition INT_MIN : Z := - 2 ^ 31.
Definition INT_MAX : Z := 2 ^ 31 - 1.

Definition wrap_int (z : Z) : Z := (z + 2 ^ 31) mod 2 ^ 32 - 2 ^ 31.

(** [a - b] on two [LONG]s. *)
Definition int_sub (a b : Z) : Z := wrap_int (a - b).

Definition in_int (z : Z) : Prop := INT_MIN ≤ z ≤ INT_MAX.

(** ** Windows data *)

Module RECT.
Record t := mk { left : Z; top : Z; right : Z; bottom : Z }.
End RECT.

Record POINT := { pt_x : Z; pt_y : Z }.

(** A monitor handle; [0] is the null handle. *)
Definition HMONITOR := Z.
Definition HWND := Z.

Record MONITORINFOEX := {
  rcMonitor : RECT.t;
  rcWork : RECT.t;
  dwFlags : Z;
  szDevice : string
}.

Inductive DPI_AWARENESS_CONTEXT :=
| DPI_AWARENESS_CONTEXT_UNAWARE
| DPI_AWARENESS_CONTEXT_SYSTEM_AWARE
| DPI_AWARENESS_CONTEXT_PER_MONITOR_AWARE
| DPI_AWARENESS_CONTEXT_PER_MONITOR_AWARE_V2
| DPI_AWARENESS_CONTEXT_UNAWARE_GDISCALED.

Inductive DPI_HOSTING_BEHAVIOR :=
| DPI_HOSTING_BEHAVIOR_DEFAULT
| DPI_HOSTING_BEHAVIOR_MIXED.

(** The DPI state of one thread. *)
Record ThreadDpi := {
  awareness : DPI_AWARENESS_CONTEXT;
  hosting : DPI_HOSTING_BEHAVIOR
}.

(** ** Single precision floats

    [float] is IEEE 754 binary32, in the representation of the standard
    library's [SpecFloat]: sign, mantissa and exponent, the value of
    [S754_finite s m e] being [(-1)^s * m * 2^e]. *)

Module F32.
Definition prec : Z := 24.
Definition emax : Z := 128.

Definition float := spec_float.

(** [static_cast<float>(n)]: round to nearest, ties to even. *)
Definition of_int (n : Z) : float := binary_normalize prec emax n 0 false.

Definition mul : float → float → float := SFmul prec emax.
Definition div : float → float → float := SFdiv prec emax.

(** [std::roundf]: the nearest integral value, halfway cases away from
    zero whatever the rounding mode; zeros, infinities and NaN are
    returned unchanged and the sign is kept.  The integral result is
    stored with exponent 0. *)
Definition roundf (x : float) : float :=
  match x with
  | S754_finite s m e =>
      if 0 <=? e then x
      else
        let d := 2 ^ (- e) in
        let q := (Z.pos m + d / 2) / d in
        match q with
        | Z.pos p => S754_finite s p 0
        | _ => S754_zero s
        end
  | _ => x
  end.

(** [static_cast<int>(x)]: the fraction is discarded.  The conversion of
    a NaN, an infinity or a value outside [int] has no defined result in
    C++; the x64 conversion instruction yields [INT_MIN] there. *)
Definition to_int (x : float) : Z :=
  match x with
  | S754_zero _ => 0
  | S754_finite s m e =>
      let a := if 0 <=? e then Z.pos m * 2 ^ e else Z.pos m / 2 ^ (- e) in
      let v := cond_Zopp s a in
      if (INT_MIN <=? v) && (v <=? INT_MAX) then v else INT_MIN
  | _ => INT_MIN
  end.

Definition is_finite (x : float) : bool :=
  match x with
  | S754_zero _ | S754_finite _ _ _ => true
  | _ => false
  end.

(** The rational a finite float stands for. *)
Definition to_Q (x : float) : Q :=
  match x with
  | S754_finite s m e =>
      if 0 <=? e then inject_Z (cond_Zopp s (Z.pos m * 2 ^ e))
      else Qmake (cond_Zopp s (Z.pos m)) (Z.to_pos (2 ^ (- e)))
  | _ => 0%Q
  end.

(** Rounding to the nearest integer with halfway cases away from zero,
    stated on rationals: the reading of the specification. *)
Definition round_half_away (q : Q) : Z :=
  if Qle_bool 0 q then Qfloor (q + (1 # 2)) else Qceiling (q - (1 # 2)).
End F32.

(** ** JSON values *)

#[warnings="-register-all"]
Inductive JsonValue :=
| JsonNumber (n : Z)
| JsonBoolean (b : bool)
| JsonString (s : string)
| JsonArray (items : list JsonValue)
| JsonObject (members : list (string * JsonValue)).

(** [JsonObject::SetNamedValue]: the member is replaced when the name is
    present and added otherwise. *)
Fixpoint SetNamedValue (name : string) (v : JsonValue)
    (members : list (string * JsonValue)) : list (string * JsonValue) :=
  match members with
  | [] => [(name, v)]
  | (n, w) :: rest =>
      if decide (n = name) then (n, v) :: rest
      else (n, w) :: SetNamedValue name v rest
  end.

(** ** Names declared in headers

    Modelled from the spec: the identifiers of
    [NonLocalizable::EditorParametersIds] are declared in
    [EditorParameters.h]; the names below are the field identifiers of
    the file record listed in section 6 of the specification. *)

Module EditorParametersIds.
Definition ProcessId : string := "process-id".
Definition SpanZonesAcrossMonitors : string := "span-zones-across-monitors".
Definition Monitors : string := "monitors".
Definition MonitorNameId : string := "monitor-name".
Definition VirtualDesktopId : string := "virtual-desktop".
Definition Dpi : string := "dpi".
Definition TopCoordinate : string := "top".
Definition LeftCoordinate : string := "left".
Definition WorkAreaWidth : string := "work-area-width".
Definition WorkAreaHeight : string := "work-area-height".
Definition MonitorWidth : string := "monitor-width".
Definition MonitorHeight : string := "monitor-height".
Definition IsSelected : string := "is-selected".
End EditorParametersIds.

Definition FancyZonesEditorParametersFile : string := "editor-parameters.json".

(** What the headers that are not at hand fix and the specification
    leaves open: the reserved name of the combined monitor
    ([ZonedWindowProperties::MultiMonitorDeviceID]), the text of the index
    suffix a repeated device identifier receives, and the decoration the
    operating system puts in front of a device identifier. *)
Record Declared := {
  MultiMonitorDeviceID : string;
  index_suffix : N → string;
  decoration : string
}.

(** ** The records of the parameter file *)

Module JsonUtils.
Import EditorParametersIds.

Record MonitorInfo := {
  monitorName : string;
  virtualDesktop : string;
  dpi : Z;
  top : Z;
  left : Z;
  workAreaWidth : Z;
  workAreaHeight : Z;
  monitorWidth : Z;
  monitorHeight : Z;
  isSelected : bool
}.

Definition MonitorInfo_ToJson (monitor : MonitorInfo) : JsonValue :=
  let result := [] in
  let result := SetNamedValue MonitorNameId (JsonString (monitorName monitor)) result in
  let result := SetNamedValue VirtualDesktopId (JsonString (virtualDesktop monitor)) result in
  let result := SetNamedValue Dpi (JsonNumber (dpi monitor)) result in
  let result := SetNamedValue TopCoordinate (JsonNumber (top monitor)) result in
  let result := SetNamedValue LeftCoordinate (JsonNumber (left monitor)) result in
  let result := SetNamedValue WorkAreaWidth (JsonNumber (workAreaWidth monitor)) result in
  let result := SetNamedValue WorkAreaHeight (JsonNumber (workAreaHeight monitor)) result in
  let result := SetNamedValue MonitorWidth (JsonNumber (monitorWidth monitor)) result in
  let result := SetNamedValue MonitorHeight (JsonNumber (monitorHeight monitor)) result in
  let result := SetNamedValue IsSelected (JsonBoolean (isSelected monitor)) result in
  JsonObject result.

Record EditorArgs := {
  processId : Z;
  spanZonesAcrossMonitors : bool;
  monitors : list MonitorInfo
}.

Definition EditorArgs_ToJson (args : EditorArgs) : JsonValue :=
  let result := [] in
  let result := SetNamedValue ProcessId (JsonNumber (processId args)) result in
  let result :=
    SetNamedValue SpanZonesAcrossMonitors
      (JsonBoolean (spanZonesAcrossMonitors args)) result in
  let monitors := foldl (λ arr monitor, arr ++ [MonitorInfo_ToJson monitor]) [] (monitors args) in
  let result := SetNamedValue Monitors (JsonArray monitors) result in
  JsonObject result.
End JsonUtils.

(** ** The collaborators

    Everything [Save] asks of its surroundings during one call: the
    virtual desktop, the settings, the display and the settings folder.
    An [OS] value is one fixed state of those surroundings. *)

Record OS := {
  (** [GuidToString(VirtualDesktop::instance().GetCurrentVirtualDesktopId())] *)
  currentVirtualDesktopId : option string;
  (** [FancyZonesSettings::settings()] *)
  settings_spanZonesAcrossMonitors : bool;
  settings_use_cursorpos_editor_startupscreen : bool;
  GetCurrentProcessId : Z;
  (** the DPI state a new thread of the process starts in *)
  process_dpi : ThreadDpi;
  (** the monitors with their [MONITORINFOEX], in enumeration order, as
      they are reported to a thread in the given DPI state *)
  display_monitors : ThreadDpi → list (HMONITOR * MONITORINFOEX);
  GetCursorPos : POINT;
  (** with [MONITOR_DEFAULTTOPRIMARY] *)
  MonitorFromPoint : POINT → HMONITOR;
  GetForegroundWindow : HWND;
  (** with [MONITOR_DEFAULTTOPRIMARY] *)
  MonitorFromWindow : HWND → HMONITOR;
  (** [DPIAware::GetScreenDPIForMonitor]: the DPI when the result is
      [S_OK], nothing otherwise *)
  GetScreenDPIForMonitor : HMONITOR → option Z;
  (** [DPIAware::Convert], on its two in-out arguments *)
  Convert : HMONITOR → F32.float → F32.float → F32.float * F32.float;
  (** [PTSettingsHelper::get_module_save_folder_location(ModuleKey)] *)
  module_save_folder : string
}.

(** ** Execution contexts and the observable world *)

Inductive Context :=
| CallerThread
| DpiUnawareThread.   (* the thread owned by the [OnThreadExecutor] *)

#[global] Instance Context_eq_dec : EqDecision Context.
Proof. solve_decision. Defined.

(** [&MONITORINFOEX::rcWork] or [&MONITORINFOEX::rcMonitor] *)
Inductive RectMember := member_rcWork | member_rcMonitor.

Definition rect_of (member : RectMember) (mi : MONITORINFOEX) : RECT.t :=
  match member with
  | member_rcWork => rcWork mi
  | member_rcMonitor => rcMonitor mi
  end.

Inductive Call :=
| CallSubmit   (* a task is handed to the executor *)
| CallWait     (* [wait()] on that task has returned *)
| CallSetThreadDpiAwarenessContext (c : DPI_AWARENESS_CONTEXT)
| CallSetThreadDpiHostingBehavior (h : DPI_HOSTING_BEHAVIOR)
| CallGetAllMonitorInfo (member : RectMember)
| CallGetAllMonitorsCombinedRect (member : RectMember).

(** One call of the executor or of the display interface: the thread it
    ran on and the DPI state of that thread when it started. *)
Record Event := {
  ev_call : Call;
  ev_context : Context;
  ev_dpi : ThreadDpi
}.

Record World := {
  logged : list string;
  files : gmap string JsonValue;
  calls : list Event;
  running : Context;
  caller_dpi : ThreadDpi;
  worker_dpi : ThreadDpi
}.

Definition M (A : Type) : Type := World → A * World.

#[global] Instance M_ret : MRet M := λ A a w, (a, w).
#[global] Instance M_bind : MBind M := λ A B k m w, let '(a, w') := m w in k a w'.

Definition gets {A} (f : World → A) : M A := λ w, (f w, w).
Definition modify (f : World → World) : M unit := λ w, (tt, f w).

Definition current_dpi (w : World) : ThreadDpi :=
  match running w with
  | CallerThread => caller_dpi w
  | DpiUnawareThread => worker_dpi w
  end.

Definition set_current_dpi (dpi : ThreadDpi) (w : World) : World :=
  match running w with
  | CallerThread =>
      {| logged := logged w; files := files w; calls := calls w;
         running := running w; caller_dpi := dpi; worker_dpi := worker_dpi w |}
  | DpiUnawareThread =>
      {| logged := logged w; files := files w; calls := calls w;
         running := running w; caller_dpi := caller_dpi w; worker_dpi := dpi |}
  end.

Definition set_running (ctx : Context) (w : World) : World :=
  {| logged := logged w; files := files w; calls := calls w;
     running := ctx; caller_dpi := caller_dpi w; worker_dpi := worker_dpi w |}.

(** Every call is recorded with the thread it runs on. *)
Definition record_call (c : Call) : M unit :=
  modify (λ w,
    {| logged := logged w; files := files w;
       calls := calls w ++ [ {| ev_call := c; ev_context := running w;
                                ev_dpi := current_dpi w |} ];
       running := running w; caller_dpi := caller_dpi w;
       worker_dpi := worker_dpi w |}).

Definition SetThreadDpiAwarenessContext (c : DPI_AWARENESS_CONTEXT) : M unit :=
  record_call (CallSetThreadDpiAwarenessContext c);;
  modify (λ w, set_current_dpi
                 {| awareness := c; hosting := hosting (current_dpi w) |} w).

Definition SetThreadDpiHostingBehavior (h : DPI_HOSTING_BEHAVIOR) : M unit :=
  record_call (CallSetThreadDpiHostingBehavior h);;
  modify (λ w, set_current_dpi
                 {| awareness := awareness (current_dpi w); hosting := h |} w).

(** [OnThreadExecutor dpiUnawareThread;]: a new thread of the process. *)
Definition OnThreadExecutor_new (os : OS) : M unit :=
  modify (λ w,
    {| logged := logged w; files := files w; calls := calls w;
       running := running w; caller_dpi := caller_dpi w;
       worker_dpi := process_dpi os |}).

(** [dpiUnawareThread.submit(task).wait()]: the task runs on the
    executor's thread while the caller waits for its completion. *)
Definition submit_wait {A} (task : M A) : M A :=
  record_call CallSubmit;;
  modify (set_running DpiUnawareThread);;
  a ← task;
  modify (set_running CallerThread);;
  record_call CallWait;;
  mret a.

Definition Logger_error (message : string) : M unit :=
  modify (λ w,
    {| logged := logged w ++ [message]; files := files w; calls := calls w;
       running := running w; caller_dpi := caller_dpi w;
       worker_dpi := worker_dpi w |}).

(** [json::to_file]: the file is replaced. *)
Definition to_file (fileName : string) (json : JsonValue) : M unit :=
  modify (λ w,
    {| logged := logged w; files := <[fileName := json]> (files w);
       calls := calls w; running := running w; caller_dpi := caller_dpi w;
       worker_dpi := worker_dpi w |}).

(** ** The helpers of [util.h] *)

(** [FancyZonesUtils::GetAllMonitorInfo<member>()]: the enumeration, made
    in the DPI state of the running thread. *)
Definition GetAllMonitorInfo (os : OS) (member : RectMember)
    : M (list (HMONITOR * MONITORINFOEX)) :=
  record_call (CallGetAllMonitorInfo member);;
  gets (λ w, display_monitors os (current_dpi w)).

Definition union_rect (a b : RECT.t) : RECT.t :=
  {| RECT.left := Z.min (RECT.left a) (RECT.left b);
     RECT.top := Z.min (RECT.top a) (RECT.top b);
     RECT.right := Z.max (RECT.right a) (RECT.right b);
     RECT.bottom := Z.max (RECT.bottom a) (RECT.bottom b) |}.

(** Modelled from the spec: [FancyZonesUtils::GetAllMonitorsCombinedRect]
    is declared in [util.h], which is not at hand.  Section 4.6: the union
    rectangle is the "min of all lefts/tops, max of all rights/bottoms
    across the set".  The specification says nothing of an empty set; the
    zero rectangle stands there. *)
Definition combined_rect (rects : list RECT.t) : RECT.t :=
  match rects with
  | [] => RECT.mk 0 0 0 0
  | r :: rest => foldl union_rect r rest
  end.

Definition GetAllMonitorsCombinedRect (os : OS) (member : RectMember) : M RECT.t :=
  record_call (CallGetAllMonitorsCombinedRect member);;
  gets (λ w, combined_rect
               ((λ md, rect_of member md.2) <$> display_monitors os (current_dpi w))).

(** Modelled from the spec: [FancyZonesUtils::GetDisplayDeviceId] is
    declared in [util.h], which is not at hand.  Section 4.3: it "keeps a
    mapping from base device identifier to a running occurrence count
    for the duration of one snapshot and appends an index suffix on the
    second and later occurrence of the same base id".  The map is the
    caller's [std::unordered_map<std::wstring, DWORD>], passed by
    reference; the new map is returned with the identifier. *)
Definition GetDisplayDeviceId (d : Declared) (device : string)
    (displayDeviceIdxMap : gmap string N) : string * gmap string N :=
  let count := default 0%N (displayDeviceIdxMap !! device) in
  (if decide (count = 0%N) then device else device +:+ index_suffix d count,
   <[device := (count + 1)%N]> displayDeviceIdxMap).

Fixpoint strip_prefix (p s : string) : option string :=
  match p, s with
  | EmptyString, _ => Some s
  | String a p', String b s' => if decide (a = b) then strip_prefix p' s' else None
  | String _ _, EmptyString => None
  end.

(** Modelled from the spec: [FancyZonesUtils::TrimDeviceId] is declared in
    [util.h], which is not at hand.  Section 4.3: the identifier "is
    further trimmed of any OS-supplied container/prefix decoration before
    use". *)
Definition TrimDeviceId (d : Declared) (deviceId : string) : string :=
  match strip_prefix (decoration d) deviceId with
  | Some rest => rest
  | None => deviceId
  end.

(** ** [EditorParameters::Save] *)

Definition NoVirtualDesktopMessage : string := "Save editor params: no virtual desktop id".
Definition NoTargetMonitorMessage : string := "No target monitor to open editor".

(** The body of the loop over [allMonitors].  The state is the device
    index map and [argsJson.monitors]; a monitor whose DPI is not
    reported leaves the vector as it is ([continue]). *)
Definition monitor_iteration (d : Declared) (os : OS) (virtualDesktopIdStr : string)
    (targetMonitor : HMONITOR) (st : gmap string N * list JsonUtils.MonitorInfo)
    (monitorData : HMONITOR * MONITORINFOEX)
    : gmap string N * list JsonUtils.MonitorInfo :=
  let '(displayDeviceIdxMap, monitors) := st in
  let monitor := monitorData.1 in
  let monitorInfo := monitorData.2 in
  let '(deviceId, displayDeviceIdxMap) :=
    GetDisplayDeviceId d (szDevice monitorInfo) displayDeviceIdxMap in
  let isSelected := bool_decide (monitor = targetMonitor) in
  let monitorName := TrimDeviceId d deviceId in
  match GetScreenDPIForMonitor os monitor with
  | None => (displayDeviceIdxMap, monitors)
  | Some dpi =>
      let width :=
        F32.of_int (int_sub (RECT.right (rcMonitor monitorInfo))
                            (RECT.left (rcMonitor monitorInfo))) in
      let height :=
        F32.of_int (int_sub (RECT.bottom (rcMonitor monitorInfo))
                            (RECT.top (rcMonitor monitorInfo))) in
      let '(width, height) := Convert os monitor width height in
      let monitorJson :=
        {| JsonUtils.monitorName := monitorName;
           JsonUtils.virtualDesktop := virtualDesktopIdStr;
           JsonUtils.dpi := wrap_int dpi;
           JsonUtils.top := RECT.top (rcWork monitorInfo);
           JsonUtils.left := RECT.left (rcWork monitorInfo);
           JsonUtils.workAreaWidth :=
             int_sub (RECT.right (rcWork monitorInfo)) (RECT.left (rcWork monitorInfo));
           JsonUtils.workAreaHeight :=
             int_sub (RECT.bottom (rcWork monitorInfo)) (RECT.top (rcWork monitorInfo));
           JsonUtils.monitorWidth := F32.to_int (F32.roundf width);
           JsonUtils.monitorHeight := F32.to_int (F32.roundf height);
           JsonUtils.isSelected := isSelected |} in
      (displayDeviceIdxMap, monitors ++ [monitorJson])
  end.

(** The policy that picks the monitor the editor opens on. *)
Definition select_target (os : OS) : HMONITOR :=
  if settings_use_cursorpos_editor_startupscreen os
  then MonitorFromPoint os (GetCursorPos os)
  else MonitorFromWindow os (GetForegroundWindow os).

Definition parameters_file (os : OS) : string :=
  module_save_folder os +:+ "\" +:+ FancyZonesEditorParametersFile.

Definition write_parameters (os : OS) (argsJson : JsonUtils.EditorArgs) : M bool :=
  let folderPath := module_save_folder os in
  let fileName := folderPath +:+ "\" +:+ FancyZonesEditorParametersFile in
  to_file fileName (JsonUtils.EditorArgs_ToJson argsJson);;
  mret true.

Definition Save (d : Declared) (os : OS) : M bool :=
  match currentVirtualDesktopId os with
  | None =>
      Logger_error NoVirtualDesktopMessage;;
      mret false
  | Some virtualDesktopIdStr =>
      OnThreadExecutor_new os;;
      submit_wait (SetThreadDpiAwarenessContext DPI_AWARENESS_CONTEXT_UNAWARE;;
                   SetThreadDpiHostingBehavior DPI_HOSTING_BEHAVIOR_MIXED);;
      let spanZonesAcrossMonitors := settings_spanZonesAcrossMonitors os in
      let processId := GetCurrentProcessId os in
      if spanZonesAcrossMonitors then
        combinedWorkArea ← submit_wait (GetAllMonitorsCombinedRect os member_rcWork);
        combinedMonitorArea ← GetAllMonitorsCombinedRect os member_rcMonitor;
        let monitorJson :=
          {| JsonUtils.monitorName := MultiMonitorDeviceID d;
             JsonUtils.virtualDesktop := virtualDesktopIdStr;
             JsonUtils.dpi := 0;
             JsonUtils.top := RECT.top combinedWorkArea;
             JsonUtils.left := RECT.left combinedWorkArea;
             JsonUtils.workAreaWidth :=
               int_sub (RECT.right combinedWorkArea) (RECT.left combinedWorkArea);
             JsonUtils.workAreaHeight :=
               int_sub (RECT.bottom combinedWorkArea) (RECT.top combinedWorkArea);
             JsonUtils.monitorWidth :=
               int_sub (RECT.right combinedMonitorArea) (RECT.left combinedMonitorArea);
             JsonUtils.monitorHeight :=
               int_sub (RECT.bottom combinedMonitorArea) (RECT.top combinedMonitorArea);
             JsonUtils.isSelected := true |} in
        write_parameters os
          {| JsonUtils.processId := processId;
             JsonUtils.spanZonesAcrossMonitors := spanZonesAcrossMonitors;
             JsonUtils.monitors := [monitorJson] |}
      else
        allMonitors ← submit_wait (GetAllMonitorInfo os member_rcWork);
        let targetMonitor := select_target os in
        if decide (targetMonitor = 0) then
          Logger_error NoTargetMonitorMessage;;
          mret false
        else
          let '(_, monitors) :=
            foldl (monitor_iteration d os virtualDesktopIdStr targetMonitor)
                  (∅, []) allMonitors in
          write_parameters os
            {| JsonUtils.processId := processId;
               JsonUtils.spanZonesAcrossMonitors := spanZonesAcrossMonitors;
               JsonUtils.monitors := monitors |}
  end.

(** ** Reading a run of [Save] *)

Definition unaware_mixed : ThreadDpi :=
  {| awareness := DPI_AWARENESS_CONTEXT_UNAWARE;
     hosting := DPI_HOSTING_BEHAVIOR_MIXED |}.

(** [Save] returned [true] and its only effect on the files was to put
    the serialised [args] in the parameter file. *)
Definition Saved (d : Declared) (os : OS) (w : World)
    (args : JsonUtils.EditorArgs) : Prop :=
  (Save d os w).1 = true ∧
  files (Save d os w).2 =
    <[parameters_file os := JsonUtils.EditorArgs_ToJson args]> (files w).

(** The calls [Save] added to the trace of [w]. *)
Definition new_calls (d : Declared) (os : OS) (w : World) : list Event :=
  drop (length (calls w)) (calls (Save d os w).2).

(** The state of the loop after the monitors [mons]. *)
Definition loop_state (d : Declared) (os : OS) (vd : string) (target : HMONITOR)
    (mons : list (HMONITOR * MONITORINFOEX))
    : gmap string N * list JsonUtils.MonitorInfo :=
  foldl (monitor_iteration d os vd target) (∅, []) mons.

(** What the iteration for the monitor at position [i] of the enumeration
    appends to the vector: its record, or nothing when the iteration ends
    in [continue]. *)
Definition iteration_output (d : Declared) (os : OS) (vd : string)
    (target : HMONITOR) (mons : list (HMONITOR * MONITORINFOEX)) (i : nat)
    : option JsonUtils.MonitorInfo :=
  md ← mons !! i;
  head (monitor_iteration d os vd target
          ((loop_state d os vd target (take i mons)).1, []) md).2.

(** How many of the first [i] monitors carry the device name [device]. *)
Definition occurrences_before (mons : list (HMONITOR * MONITORINFOEX)) (i : nat)
    (device : string) : N :=
  N.of_nat (length (filter (λ md, szDevice md.2 = device) (take i mons))).

Definition selected_count (ms : list JsonUtils.MonitorInfo) : nat :=
  length (filter (λ m, JsonUtils.isSelected m = true) ms).

(** The monitor is the chosen one and its DPI query succeeds. *)
Definition chosen_and_reported (os : OS) (target : HMONITOR)
    (md : HMONITOR * MONITORINFOEX) : Prop :=
  md.1 = target ∧ is_Some (GetScreenDPIForMonitor os md.1).

#[global] Instance chosen_and_reported_dec os target md :
  Decision (chosen_and_reported os target md).
Proof. unfold chosen_and_reported. apply _. Defined.

Definition is_minimum (x : Z) (l : list Z) : Prop := x ∈ l ∧ ∀ y, y ∈ l → x ≤ y.
Definition is_maximum (x : Z) (l : list Z) : Prop := x ∈ l ∧ ∀ y, y ∈ l → y ≤ x.

(** The same surroundings with another answer of one collaborator. *)
Definition with_GetScreenDPIForMonitor (f : HMONITOR → option Z) (os : OS) : OS :=
  {| currentVirtualDesktopId := currentVirtualDesktopId os;
     settings_spanZonesAcrossMonitors := settings_spanZonesAcrossMonitors os;
     settings_use_cursorpos_editor_startupscreen :=
       settings_use_cursorpos_editor_startupscreen os;
     GetCurrentProcessId := GetCurrentProcessId os;
     process_dpi := process_dpi os;
     display_monitors := display_monitors os;
     GetCursorPos := GetCursorPos os;
     MonitorFromPoint := MonitorFromPoint os;
     GetForegroundWindow := GetForegroundWindow os;
     MonitorFromWindow := MonitorFromWindow os;
     GetScreenDPIForMonitor := f;
     Convert := Convert os;
     module_save_folder := module_save_folder os |}.

Definition with_GetCurrentProcessId (pid : Z) (os : OS) : OS :=
  {| currentVirtualDesktopId := currentVirtualDesktopId os;
     settings_spanZonesAcrossMonitors := settings_spanZonesAcrossMonitors os;
     settings_use_cursorpos_editor_startupscreen :=
       settings_use_cursorpos_editor_startupscreen os;
     GetCurrentProcessId := pid;
     process_dpi := process_dpi os;
     display_monitors := display_monitors os;
     GetCursorPos := GetCursorPos os;
     MonitorFromPoint := MonitorFromPoint os;
     GetForegroundWindow := GetForegroundWindow os;
     MonitorFromWindow := MonitorFromWindow os;
     GetScreenDPIForMonitor := GetScreenDPIForMonitor os;
     Convert := Convert os;
     module_save_folder := module_save_folder os |}.

(** The parameter record with its process id blanked. *)
Definition without_process_id (j : JsonValue) : JsonValue :=
  match j with
  | JsonObject members =>
      JsonObject (SetNamedValue EditorParametersIds.ProcessId (JsonNumber 0) members)
  | _ => j
  end.

(** The caller makes no call of its own between handing a task to the
    executor and the return of [wait()], and the executor's thread runs
    only then. *)
Fixpoint caller_waits (in_task : bool) (evs : list Event) : bool :=
  match evs with
  | [] => negb in_task
  | e :: rest =>
      match ev_call e, in_task with
      | CallSubmit, false =>
          bool_decide (ev_context e = CallerThread) && caller_waits true rest
      | CallWait, true =>
          bool_decide (ev_context e = CallerThread) && caller_waits false rest
      | CallSubmit, true | CallWait, false => false
      | _, true =>
          bool_decide (ev_context e = DpiUnawareThread) && caller_waits true rest
      | _, false =>
          bool_decide (ev_context e = CallerThread) && caller_waits false rest
      end
  end.

(** Calls that enumerate the monitor rectangles. *)
Definition is_enumeration (c : Call) : bool :=
  match c with
  | CallGetAllMonitorInfo _ | CallGetAllMonitorsCombinedRect _ => true
  | _ => false
  end.

(** The calls of the first task, which switches the executor's thread, and
    of a later task that makes the single call [c]. *)
Definition switch_calls (os : OS) (w : World) : list Event :=
  [ {| ev_call := CallSubmit; ev_context := running w;
       ev_dpi := match running w with
                 | CallerThread => caller_dpi w
                 | DpiUnawareThread => process_dpi os
                 end |};
    {| ev_call := CallSetThreadDpiAwarenessContext DPI_AWARENESS_CONTEXT_UNAWARE;
       ev_context := DpiUnawareThread; ev_dpi := process_dpi os |};
    {| ev_call := CallSetThreadDpiHostingBehavior DPI_HOSTING_BEHAVIOR_MIXED;
       ev_context := DpiUnawareThread;
       ev_dpi := {| awareness := DPI_AWARENESS_CONTEXT_UNAWARE;
                    hosting := hosting (process_dpi os) |} |};
    {| ev_call := CallWait; ev_context := CallerThread; ev_dpi := caller_dpi w |} ].

Definition task_calls (w : World) (c : Call) : list Event :=
  [ {| ev_call := CallSubmit; ev_context := CallerThread; ev_dpi := caller_dpi w |};
    {| ev_call := c; ev_context := DpiUnawareThread; ev_dpi := unaware_mixed |};
    {| ev_call := CallWait; ev_context := CallerThread; ev_dpi := caller_dpi w |} ].

(** Calls that change the DPI state of the thread they run on. *)
Definition is_dpi_switch (c : Call) : bool :=
  match c with
  | CallSetThreadDpiAwarenessContext _ | CallSetThreadDpiHostingBehavior _ => true
  | _ => false
  end.

(** Where a record places its work area, with its DPI; and the same for an
    enumerated monitor, when it reports its DPI. *)
Definition record_place (r : JsonUtils.MonitorInfo) : Z * Z * Z :=
  (JsonUtils.left r, JsonUtils.top r, JsonUtils.dpi r).

Definition monitor_place (os : OS) (md : HMONITOR * MONITORINFOEX) : option (Z * Z * Z) :=
  dpi ← GetScreenDPIForMonitor os md.1;
  Some (RECT.left (rcWork md.2), RECT.top (rcWork md.2), wrap_int dpi).

(** The two sizes [Save] hands to [DPIAware::Convert] for a monitor. *)
Definition bounds_width (info : MONITORINFOEX) : F32.float :=
  F32.of_int (int_sub (RECT.right (rcMonitor info)) (RECT.left (rcMonitor info))).
Definition bounds_height (info : MONITORINFOEX) : F32.float :=
  F32.of_int (int_sub (RECT.bottom (rcMonitor info)) (RECT.top (rcMonitor info))).

(** ** Sample surroundings *)

Module Sample.

Definition declared : Declared :=
  {| MultiMonitorDeviceID := "MultiMonitorDevice";
     index_suffix := λ n, "_" +:+ pretty n;
     decoration := "\\.\" |}.

Definition per_monitor_aware : ThreadDpi :=
  {| awareness := DPI_AWARENESS_CONTEXT_PER_MONITOR_AWARE_V2;
     hosting := DPI_HOSTING_BEHAVIOR_DEFAULT |}.

Definition world : World :=
  {| logged := []; files := ∅; calls := []; running := CallerThread;
     caller_dpi := per_monitor_aware; worker_dpi := per_monitor_aware |}.

(** Modelled from the spec: [DPIAware::Convert] is declared in
    [common/Display/dpi_aware.h], which is not at hand.  Section 4.4: the
    rectangle "is converted from unaware pixel units into DPI-aware units
    using the monitor's scale factor"; the scale factor of a monitor is its
    DPI over the default 96. *)
Definition scale (dpi : option Z) (v : F32.float) : F32.float :=
  match dpi with
  | Some dpi => F32.div (F32.mul v (F32.of_int dpi)) (F32.of_int 96)
  | None => v
  end.

Definition monitor_info (bounds work : RECT.t) (device : string) : MONITORINFOEX :=
  {| rcMonitor := bounds; rcWork := work; dwFlags := 0; szDevice := device |}.

Definition surroundings (span cursor : bool)
    (mons : ThreadDpi → list (HMONITOR * MONITORINFOEX))
    (dpis : HMONITOR → option Z) (under_cursor foreground : HMONITOR) : OS :=
  {| currentVirtualDesktopId := Some "{8A2F0A4C-1B7E-4D55-9C3E-5F6A7B8C9D0E}";
     settings_spanZonesAcrossMonitors := span;
     settings_use_cursorpos_editor_startupscreen := cursor;
     GetCurrentProcessId := 4242;
     process_dpi := per_monitor_aware;
     display_monitors := mons;
     GetCursorPos := {| pt_x := 10; pt_y := 10 |};
     MonitorFromPoint := λ _, under_cursor;
     GetForegroundWindow := 77;
     MonitorFromWindow := λ _, foreground;
     GetScreenDPIForMonitor := dpis;
     Convert := λ h width height, (scale (dpis h) width, scale (dpis h) height);
     module_save_folder := "C:\FancyZones" |}.

(** Two monitors side by side on one adapter, the second at 125%.  A
    DPI-unaware thread sees the second one in virtualised pixels. *)
Definition left_monitor : MONITORINFOEX :=
  monitor_info (RECT.mk 0 0 1920 1080) (RECT.mk 0 0 1920 1040) "\\.\DISPLAY1".
Definition right_monitor_unaware : MONITORINFOEX :=
  monitor_info (RECT.mk 1920 0 3013 768) (RECT.mk 1920 0 3013 736) "\\.\DISPLAY1".
Definition right_monitor_aware : MONITORINFOEX :=
  monitor_info (RECT.mk 1920 0 3286 960) (RECT.mk 1920 0 3286 920) "\\.\DISPLAY1".

Definition two_monitors (dpi : ThreadDpi) : list (HMONITOR * MONITORINFOEX) :=
  match awareness dpi with
  | DPI_AWARENESS_CONTEXT_UNAWARE | DPI_AWARENESS_CONTEXT_UNAWARE_GDISCALED =>
      [(1, left_monitor); (2, right_monitor_unaware)]
  | _ => [(1, left_monitor); (2, right_monitor_aware)]
  end.

Definition two_dpis (h : HMONITOR) : option Z :=
  if decide (h = 1) then Some 96 else if decide (h = 2) then Some 120 else None.

(** Both monitors report their DPI; the pointer is over the first one. *)
Definition desk : OS := surroundings false true two_monitors two_dpis 1 2.

(** The same desk with spanning switched on. *)
Definition spanned_desk : OS := surroundings true true two_monitors two_dpis 1 2.

(** The monitor under the pointer does not report its DPI. *)
Definition desk_dpi_failure : OS :=
  surroundings false true two_monitors
    (λ h, if decide (h = 1) then None else two_dpis h) 1 2.

(** Nothing is enumerated, yet the primary monitor is resolved. *)
Definition empty_desk : OS := surroundings false true (λ _, []) two_dpis 1 1.

(** Three monitors on one adapter; the middle one does not report its DPI. *)
Definition three_monitors : list (HMONITOR * MONITORINFOEX) :=
  [(1, left_monitor);
   (2, monitor_info (RECT.mk 1920 0 3840 1080) (RECT.mk 1920 0 3840 1040) "\\.\DISPLAY1");
   (3, monitor_info (RECT.mk 3840 0 5760 1080) (RECT.mk 3840 0 5760 1040) "\\.\DISPLAY1")].

Definition desk_middle_failure : OS :=
  surroundings false false (λ _, three_monitors)
    (λ h, if decide (h = 2) then None else Some 96) 1 3.

(** One monitor at 100%, under the pointer. *)
Definition single_desk : OS :=
  surroundings false true (λ _, [(1, left_monitor)]) two_dpis 1 1.

(** Two monitors of the same size side by side, spanned. *)
Definition spanned_twins : OS :=
  surroundings true true (λ _, take 2 three_monitors) two_dpis 1 1.

(** The records [Save] writes for these surroundings. *)
Definition virtual_desktop : string := "{8A2F0A4C-1B7E-4D55-9C3E-5F6A7B8C9D0E}".

Definition monitor_record (name : string) (dpi top left width height : Z)
    (monitorWidth monitorHeight : Z) (selected : bool) : JsonUtils.MonitorInfo :=
  {| JsonUtils.monitorName := name; JsonUtils.virtualDesktop := virtual_desktop;
     JsonUtils.dpi := dpi; JsonUtils.top := top; JsonUtils.left := left;
     JsonUtils.workAreaWidth := width; JsonUtils.workAreaHeight := height;
     JsonUtils.monitorWidth := monitorWidth; JsonUtils.monitorHeight := monitorHeight;
     JsonUtils.isSelected := selected |}.

Definition editor_args (span : bool) (monitors : list JsonUtils.MonitorInfo)
    : JsonUtils.EditorArgs :=
  {| JsonUtils.processId := 4242; JsonUtils.spanZonesAcrossMonitors := span;
     JsonUtils.monitors := monitors |}.

Definition desk_args : JsonUtils.EditorArgs :=
  editor_args false
    [ monitor_record "DISPLAY1" 96 0 0 1920 1040 1920 1080 true;
      monitor_record "DISPLAY1_1" 120 0 1920 1093 736 1366 960 false ].

Definition spanned_desk_args : JsonUtils.EditorArgs :=
  editor_args true
    [ monitor_record "MultiMonitorDevice" 0 0 0 3013 1040 3286 1080 true ].

Definition single_desk_args : JsonUtils.EditorArgs :=
  editor_args false
    [ monitor_record "DISPLAY1" 96 0 0 1920 1040 1920 1080 true ].

Definition spanned_twins_args : JsonUtils.EditorArgs :=
  editor_args true
    [ monitor_record "MultiMonitorDevice" 0 0 0 3840 1040 3840 1080 true ].

Definition desk_dpi_failure_args : JsonUtils.EditorArgs :=
  editor_args false
    [ monitor_record "DISPLAY1_1" 120 0 1920 1093 736 1366 960 false ].

Definition desk_middle_failure_args : JsonUtils.EditorArgs :=
  editor_args false
    [ monitor_record "DISPLAY1" 96 0 0 1920 1040 1920 1080 false;
      monitor_record "DISPLAY1_2" 96 0 3840 1920 1040 1920 1080 true ].

(** The spanned desk seen by a caller for which no target monitor is
    resolved and no monitor reports its DPI. *)
Definition spanned_desk_blind : OS :=
  surroundings true false two_monitors (λ _, None) 0 0.

(** The desk with the other selection policy, the window in front being on
    the first monitor, the pointer elsewhere, and a DPI known for a
    monitor that is not enumerated. *)
Definition desk_by_window : OS :=
  surroundings false false two_monitors
    (λ h, if decide (h = 3) then Some 42 else two_dpis h) 7 1.


End Sample.

(** * Properties *)

(** ** The four ways through [Save] *)

Ltac run_Save :=
  cbv [Save mbind M_bind mret M_ret submit_wait record_call modify gets
       OnThreadExecutor_new SetThreadDpiAwarenessContext
       SetThreadDpiHostingBehavior GetAllMonitorsCombinedRect GetAllMonitorInfo
       Logger_error write_parameters to_file set_running set_current_dpi
       current_dpi logged files calls running caller_dpi worker_dpi].

Lemma Save_no_identity d os w :
  currentVirtualDesktopId os = None →
  Save d os w =
    (false,
     {| logged := logged w ++ [NoVirtualDesktopMessage]; files := files w;
        calls := calls w; running := running w; caller_dpi := caller_dpi w;
        worker_dpi := worker_dpi w |}).
Proof. intros Hvd. unfold Save. rewrite Hvd. reflexivity. Qed.

Lemma Save_spanned d os w vd :
  currentVirtualDesktopId os = Some vd →
  settings_spanZonesAcrossMonitors os = true →
  let work :=
    combined_rect ((λ md, rcWork md.2) <$> display_monitors os unaware_mixed) in
  let bounds :=
    combined_rect ((λ md, rcMonitor md.2) <$> display_monitors os (caller_dpi w)) in
  Save d os w =
    (true,
     {| logged := logged w;
        files :=
          <[parameters_file os :=
              JsonUtils.EditorArgs_ToJson
                {| JsonUtils.processId := GetCurrentProcessId os;
                   JsonUtils.spanZonesAcrossMonitors := true;
                   JsonUtils.monitors :=
                     [ {| JsonUtils.monitorName := MultiMonitorDeviceID d;
                          JsonUtils.virtualDesktop := vd;
                          JsonUtils.dpi := 0;
                          JsonUtils.top := RECT.top work;
                          JsonUtils.left := RECT.left work;
                          JsonUtils.workAreaWidth :=
                            int_sub (RECT.right work) (RECT.left work);
                          JsonUtils.workAreaHeight :=
                            int_sub (RECT.bottom work) (RECT.top work);
                          JsonUtils.monitorWidth :=
                            int_sub (RECT.right bounds) (RECT.left bounds);
                          JsonUtils.monitorHeight :=
                            int_sub (RECT.bottom bounds) (RECT.top bounds);
                          JsonUtils.isSelected := true |} ] |}]> (files w);
        calls :=
          calls w ++ switch_calls os w
            ++ task_calls w (CallGetAllMonitorsCombinedRect member_rcWork)
            ++ [ {| ev_call := CallGetAllMonitorsCombinedRect member_rcMonitor;
                    ev_context := CallerThread; ev_dpi := caller_dpi w |} ];
        running := CallerThread; caller_dpi := caller_dpi w;
        worker_dpi := unaware_mixed |}).
Proof.
  intros Hvd Hspan work bounds. unfold Save. rewrite Hvd, Hspan.
  run_Save. rewrite <- !app_assoc. reflexivity.
Qed.

Lemma Save_no_target d os w vd :
  currentVirtualDesktopId os = Some vd →
  settings_spanZonesAcrossMonitors os = false →
  select_target os = 0 →
  Save d os w =
    (false,
     {| logged := logged w ++ [NoTargetMonitorMessage]; files := files w;
        calls :=
          calls w ++ switch_calls os w
            ++ task_calls w (CallGetAllMonitorInfo member_rcWork);
        running := CallerThread; caller_dpi := caller_dpi w;
        worker_dpi := unaware_mixed |}).
Proof.
  intros Hvd Hspan Htarget. unfold Save. rewrite Hvd, Hspan, Htarget.
  run_Save. rewrite <- !app_assoc. reflexivity.
Qed.

Lemma Save_monitors d os w vd :
  currentVirtualDesktopId os = Some vd →
  settings_spanZonesAcrossMonitors os = false →
  select_target os ≠ 0 →
  Save d os w =
    (true,
     {| logged := logged w;
        files :=
          <[parameters_file os :=
              JsonUtils.EditorArgs_ToJson
                {| JsonUtils.processId := GetCurrentProcessId os;
                   JsonUtils.spanZonesAcrossMonitors := false;
                   JsonUtils.monitors :=
                     (loop_state d os vd (select_target os)
                        (display_monitors os unaware_mixed)).2 |}]> (files w);
        calls :=
          calls w ++ switch_calls os w
            ++ task_calls w (CallGetAllMonitorInfo member_rcWork);
        running := CallerThread; caller_dpi := caller_dpi w;
        worker_dpi := unaware_mixed |}).
Proof.
  intros Hvd Hspan Htarget. unfold Save. rewrite Hvd, Hspan.
  destruct (decide (select_target os = 0)) as [|_]; [done|].
  run_Save. rewrite <- !app_assoc. unfold loop_state.
  destruct (foldl _ _ _) as [idx monitors]. reflexivity.
Qed.

(** ** The loop over the monitors *)

Section Loop.
Context (d : Declared) (os : OS) (vd : string) (target : HMONITOR).

Local Notation "'step'" := (monitor_iteration d os vd target).

Lemma monitor_iteration_index m acc md :
  (step (m, acc) md).1 =
    <[szDevice md.2 := (default 0%N (m !! szDevice md.2) + 1)%N]> m.
Proof.
  unfold monitor_iteration, GetDisplayDeviceId. simpl.
  destruct (GetScreenDPIForMonitor os md.1); [|done].
  by destruct (Convert os md.1 _ _).
Qed.

Lemma monitor_iteration_monitors m acc md :
  (step (m, acc) md).2 = acc ++ option_list (head (step (m, []) md).2).
Proof.
  unfold monitor_iteration, GetDisplayDeviceId. simpl.
  destruct (GetScreenDPIForMonitor os md.1); simpl.
  - by destruct (Convert os md.1 _ _).
  - by rewrite app_nil_r.
Qed.

Lemma loop_state_snoc mons md :
  loop_state d os vd target (mons ++ [md]) =
    step (loop_state d os vd target mons) md.
Proof. unfold loop_state. by rewrite foldl_app. Qed.

(** The vector after the loop holds the outputs of the iterations, in
    the order of the enumeration. *)
Lemma loop_monitors mons :
  (loop_state d os vd target mons).2 =
    omap (iteration_output d os vd target mons) (seq 0 (length mons)).
Proof.
  induction mons as [|md mons IH] using rev_ind; [done|].
  rewrite loop_state_snoc, length_app, Nat.add_1_r, seq_S, omap_app. simpl.
  destruct (loop_state d os vd target mons) as [m acc] eqn:Hst.
  rewrite monitor_iteration_monitors. simpl in IH. f_equal.
  - rewrite IH. apply list_omap_ext, Forall_Forall2_diag, Forall_forall. intros i Hi.
    apply elem_of_seq in Hi. unfold iteration_output.
    rewrite lookup_app_l by lia. by rewrite take_app_le by lia.
  - unfold iteration_output. rewrite list_lookup_middle by done. simpl.
    rewrite take_app_length, Hst. simpl.
    by destruct (head _).
Qed.

(** The count kept for a device name is the number of monitors seen with
    that name, whatever became of them. *)
Lemma loop_index mons device :
  default 0%N ((loop_state d os vd target mons).1 !! device) =
    N.of_nat (length (filter (λ md, szDevice md.2 = device) mons)).
Proof.
  induction mons as [|md mons IH] using rev_ind; [done|].
  rewrite loop_state_snoc, filter_app, length_app.
  destruct (loop_state d os vd target mons) as [m acc].
  rewrite monitor_iteration_index. simpl in IH.
  destruct (decide (szDevice md.2 = device)) as [<-|Hne].
  - rewrite lookup_insert_eq, filter_cons_True by done. simpl. lia.
  - rewrite lookup_insert_ne, filter_cons_False by done. simpl. lia.
Qed.

(** The iteration for one monitor, spelled out. *)
Lemma iteration_output_eq mons i h info :
  mons !! i = Some (h, info) →
  iteration_output d os vd target mons i =
    (dpi ← GetScreenDPIForMonitor os h;
     let k := occurrences_before mons i (szDevice info) in
     let deviceId :=
       if decide (k = 0%N) then szDevice info
       else szDevice info +:+ index_suffix d k in
     let width :=
       F32.of_int (int_sub (RECT.right (rcMonitor info)) (RECT.left (rcMonitor info))) in
     let height :=
       F32.of_int (int_sub (RECT.bottom (rcMonitor info)) (RECT.top (rcMonitor info))) in
     Some
       {| JsonUtils.monitorName := TrimDeviceId d deviceId;
          JsonUtils.virtualDesktop := vd;
          JsonUtils.dpi := wrap_int dpi;
          JsonUtils.top := RECT.top (rcWork info);
          JsonUtils.left := RECT.left (rcWork info);
          JsonUtils.workAreaWidth :=
            int_sub (RECT.right (rcWork info)) (RECT.left (rcWork info));
          JsonUtils.workAreaHeight :=
            int_sub (RECT.bottom (rcWork info)) (RECT.top (rcWork info));
          JsonUtils.monitorWidth :=
            F32.to_int (F32.roundf (Convert os h width height).1);
          JsonUtils.monitorHeight :=
            F32.to_int (F32.roundf (Convert os h width height).2);
          JsonUtils.isSelected := bool_decide (h = target) |}).
Proof.
  intros Hi. unfold iteration_output, occurrences_before. rewrite Hi. simpl.
  rewrite <- (loop_index (take i mons)).
  unfold monitor_iteration, GetDisplayDeviceId. simpl.
  destruct (GetScreenDPIForMonitor os h); [|done]. simpl.
  by destruct (Convert os h _ _).
Qed.

Lemma iteration_output_None mons i :
  mons !! i = None → iteration_output d os vd target mons i = None.
Proof. intros Hi. unfold iteration_output. by rewrite Hi. Qed.

End Loop.

(** ** The serialised record determines the record *)

Lemma monitors_array (ms : list JsonUtils.MonitorInfo) (arr : list JsonValue) :
  foldl (λ arr monitor, arr ++ [JsonUtils.MonitorInfo_ToJson monitor]) arr ms =
    arr ++ (JsonUtils.MonitorInfo_ToJson <$> ms).
Proof.
  revert arr. induction ms as [|m ms IH]; intros arr; simpl.
  - by rewrite app_nil_r.
  - by rewrite IH, <- app_assoc.
Qed.

Lemma MonitorInfo_ToJson_inj : Inj (=) (=) JsonUtils.MonitorInfo_ToJson.
Proof.
  intros [] [] Heq. cbv in Heq. by simplify_eq.
Qed.

Lemma EditorArgs_ToJson_eq (args : JsonUtils.EditorArgs) :
  JsonUtils.EditorArgs_ToJson args =
    JsonObject
      [ (EditorParametersIds.ProcessId, JsonNumber (JsonUtils.processId args));
        (EditorParametersIds.SpanZonesAcrossMonitors,
         JsonBoolean (JsonUtils.spanZonesAcrossMonitors args));
        (EditorParametersIds.Monitors,
         JsonArray (JsonUtils.MonitorInfo_ToJson <$> JsonUtils.monitors args)) ].
Proof.
  unfold JsonUtils.EditorArgs_ToJson. rewrite monitors_array. reflexivity.
Qed.

Lemma EditorArgs_ToJson_inj : Inj (=) (=) JsonUtils.EditorArgs_ToJson.
Proof.
  intros [p1 s1 ms1] [p2 s2 ms2] Heq. rewrite !EditorArgs_ToJson_eq in Heq.
  simpl in Heq. injection Heq as -> -> Hms. f_equal.
  pose proof MonitorInfo_ToJson_inj.
  by apply (inj (fmap JsonUtils.MonitorInfo_ToJson)).
Qed.

Lemma Saved_unique d os w args1 args2 :
  Saved d os w args1 → Saved d os w args2 → args1 = args2.
Proof.
  intros [_ H1] [_ H2]. rewrite H1 in H2.
  apply (f_equal (λ m, m !! parameters_file os)) in H2.
  rewrite !lookup_insert_eq in H2. apply EditorArgs_ToJson_inj. congruence.
Qed.

(** ** What a successful run wrote *)

Lemma Saved_spanned d os w args :
  settings_spanZonesAcrossMonitors os = true →
  Saved d os w args →
  ∃ vd, currentVirtualDesktopId os = Some vd ∧
    let work :=
      combined_rect ((λ md, rcWork md.2) <$> display_monitors os unaware_mixed) in
    let bounds :=
      combined_rect ((λ md, rcMonitor md.2) <$> display_monitors os (caller_dpi w)) in
    args =
      {| JsonUtils.processId := GetCurrentProcessId os;
         JsonUtils.spanZonesAcrossMonitors := true;
         JsonUtils.monitors :=
           [ {| JsonUtils.monitorName := MultiMonitorDeviceID d;
                JsonUtils.virtualDesktop := vd;
                JsonUtils.dpi := 0;
                JsonUtils.top := RECT.top work;
                JsonUtils.left := RECT.left work;
                JsonUtils.workAreaWidth := int_sub (RECT.right work) (RECT.left work);
                JsonUtils.workAreaHeight := int_sub (RECT.bottom work) (RECT.top work);
                JsonUtils.monitorWidth := int_sub (RECT.right bounds) (RECT.left bounds);
                JsonUtils.monitorHeight := int_sub (RECT.bottom bounds) (RECT.top bounds);
                JsonUtils.isSelected := true |} ] |}.
Proof.
  intros Hspan HS.
  destruct (currentVirtualDesktopId os) as [vd|] eqn:Hvd.
  - exists vd. split; [done|]. intros work bounds.
    eapply Saved_unique; [exact HS|].
    unfold Saved. by rewrite (Save_spanned d os w vd Hvd Hspan).
  - destruct HS as [Hret _]. by rewrite Save_no_identity in Hret.
Qed.

Lemma Saved_monitors d os w args :
  settings_spanZonesAcrossMonitors os = false →
  Saved d os w args →
  ∃ vd, currentVirtualDesktopId os = Some vd ∧ select_target os ≠ 0 ∧
    args =
      {| JsonUtils.processId := GetCurrentProcessId os;
         JsonUtils.spanZonesAcrossMonitors := false;
         JsonUtils.monitors :=
           omap (iteration_output d os vd (select_target os)
                   (display_monitors os unaware_mixed))
                (seq 0 (length (display_monitors os unaware_mixed))) |}.
Proof.
  intros Hspan HS.
  destruct (currentVirtualDesktopId os) as [vd|] eqn:Hvd.
  - exists vd. split; [done|].
    destruct (decide (select_target os = 0)) as [Ht|Ht].
    + destruct HS as [Hret _]. by rewrite (Save_no_target d os w vd) in Hret.
    + split; [done|]. eapply Saved_unique; [exact HS|].
      unfold Saved. rewrite (Save_monitors d os w vd Hvd Hspan Ht). simpl.
      by rewrite loop_monitors.
  - destruct HS as [Hret _]. by rewrite Save_no_identity in Hret.
Qed.

(** A record is in the written list exactly when it is the output of the
    iteration for one of the enumerated monitors. *)
Lemma elem_of_outputs d os vd target mons r :
  r ∈ omap (iteration_output d os vd target mons) (seq 0 (length mons)) ↔
  ∃ i, iteration_output d os vd target mons i = Some r.
Proof.
  rewrite list_elem_of_omap. split.
  - intros (i & _ & Hi). eauto.
  - intros [i Hi]. exists i. split; [|done]. apply elem_of_seq.
    destruct (mons !! i) eqn:Hl.
    + apply lookup_lt_Some in Hl. lia.
    + by rewrite iteration_output_None in Hi.
Qed.

(** ** The outcome of [Save] *)

Example Saved_single_desk :
  Saved Sample.declared Sample.single_desk Sample.world Sample.single_desk_args.
Proof. split; reflexivity. Qed.

Example Saved_desk :
  Saved Sample.declared Sample.desk Sample.world Sample.desk_args.
Proof. split; reflexivity. Qed.

Example Save_without_identity :
  ∀ os, currentVirtualDesktopId os = None →
    Save Sample.declared os Sample.world =
      (false,
       {| logged := [NoVirtualDesktopMessage]; files := ∅; calls := [];
          running := CallerThread; caller_dpi := Sample.per_monitor_aware;
          worker_dpi := Sample.per_monitor_aware |}).
Proof. intros os Hvd. by rewrite Save_no_identity. Qed.

Lemma Save_returns d os w :
  (Save d os w).1 =
    match currentVirtualDesktopId os with
    | None => false
    | Some _ =>
        settings_spanZonesAcrossMonitors os || negb (bool_decide (select_target os = 0))
    end.
Proof.
  destruct (currentVirtualDesktopId os) as [vd|] eqn:Hvd.
  - destruct (settings_spanZonesAcrossMonitors os) eqn:Hspan.
    + by rewrite (Save_spanned d os w vd).
    + destruct (decide (select_target os = 0)) as [Ht|Ht].
      * rewrite (Save_no_target d os w vd) by done. by rewrite bool_decide_true.
      * rewrite (Save_monitors d os w vd) by done. by rewrite bool_decide_false.
  - by rewrite Save_no_identity.
Qed.

Lemma Save_returns_false d os w :
  (Save d os w).1 = false ↔
    currentVirtualDesktopId os = None ∨
    (settings_spanZonesAcrossMonitors os = false ∧ select_target os = 0).
Proof.
  rewrite Save_returns.
  destruct (currentVirtualDesktopId os); [|intuition congruence].
  destruct (settings_spanZonesAcrossMonitors os); simpl; [intuition congruence|].
  case_bool_decide; simpl; intuition congruence.
Qed.

Lemma Save_failure d os w :
  (Save d os w).1 = false →
  files (Save d os w).2 = files w ∧
  ∃ message, logged (Save d os w).2 = logged w ++ [message].
Proof.
  destruct (currentVirtualDesktopId os) as [vd|] eqn:Hvd.
  - destruct (settings_spanZonesAcrossMonitors os) eqn:Hspan.
    + by rewrite (Save_spanned d os w vd).
    + destruct (decide (select_target os = 0)) as [Ht|Ht].
      * rewrite (Save_no_target d os w vd) by done. simpl. eauto.
      * by rewrite (Save_monitors d os w vd).
  - rewrite Save_no_identity by done. simpl. eauto.
Qed.

Lemma Save_success d os w :
  (Save d os w).1 = true →
  logged (Save d os w).2 = logged w ∧ ∃ args, Saved d os w args.
Proof.
  unfold Saved. destruct (currentVirtualDesktopId os) as [vd|] eqn:Hvd.
  - destruct (settings_spanZonesAcrossMonitors os) eqn:Hspan.
    + rewrite (Save_spanned d os w vd) by done. simpl. eauto.
    + destruct (decide (select_target os = 0)) as [Ht|Ht].
      * by rewrite (Save_no_target d os w vd).
      * rewrite (Save_monitors d os w vd) by done. simpl. eauto.
  - by rewrite Save_no_identity.
Qed.

(** C1.  [Save] returns [false] exactly when the virtual desktop identity
    is missing or, without spanning, no target monitor is resolved.  It
    then logs one message and leaves the files as they were.  In every
    other case it returns [true], logs nothing and writes the record to the
    parameter file.  The answers of the DPI query have no part in the
    returned value. *)
Theorem Save_false_iff d os w :
  ((Save d os w).1 = false ↔
     currentVirtualDesktopId os = None ∨
     (settings_spanZonesAcrossMonitors os = false ∧ select_target os = 0)) ∧
  ((Save d os w).1 = false →
     files (Save d os w).2 = files w ∧
     ∃ message, logged (Save d os w).2 = logged w ++ [message]) ∧
  ((Save d os w).1 = true →
     logged (Save d os w).2 = logged w ∧ ∃ args, Saved d os w args) ∧
  (∀ dpis, (Save d (with_GetScreenDPIForMonitor dpis os) w).1 = (Save d os w).1).
Proof.
  split_and!.
  - apply Save_returns_false.
  - apply Save_failure.
  - apply Save_success.
  - intros dpis. by rewrite !Save_returns.
Qed.

(** C8.  An enumeration without monitors is no error of its own: without
    spanning, [Save] then fails only for a missing identity or a missing
    target monitor, and otherwise writes a record whose monitor list is
    empty, logging nothing. *)
Theorem Save_no_monitors d os w :
  settings_spanZonesAcrossMonitors os = false →
  display_monitors os unaware_mixed = [] →
  ((Save d os w).1 = false ↔
     currentVirtualDesktopId os = None ∨ select_target os = 0) ∧
  ((Save d os w).1 = true →
     logged (Save d os w).2 = logged w ∧
     Saved d os w
       {| JsonUtils.processId := GetCurrentProcessId os;
          JsonUtils.spanZonesAcrossMonitors := false;
          JsonUtils.monitors := [] |}).
Proof.
  intros Hspan Hmons. split.
  - rewrite Save_returns_false. intuition congruence.
  - intros Hret. destruct (Save_success d os w Hret) as [Hlog [args HS]].
    split; [done|].
    destruct (Saved_monitors d os w args Hspan HS) as (vd & _ & _ & Hargs).
    rewrite Hmons in Hargs. simpl in Hargs. by subst args.
Qed.

Lemma Save_no_monitors_witness :
  (Save Sample.declared Sample.empty_desk Sample.world).1 = true ∧
  Saved Sample.declared Sample.empty_desk Sample.world
    {| JsonUtils.processId := 4242;
       JsonUtils.spanZonesAcrossMonitors := false;
       JsonUtils.monitors := [] |}.
Proof.
  split; [reflexivity|].
  apply (Save_no_monitors Sample.declared Sample.empty_desk Sample.world);
    reflexivity.
Defined.

(** ** The combined rectangle *)

Lemma is_minimum_snoc a b l :
  is_minimum a l → is_minimum (Z.min a b) (l ++ [b]).
Proof.
  intros [Hin Hle]. split.
  - destruct (Z.min_spec a b) as [[_ ->]|[_ ->]]; set_solver.
  - intros y [Hy|Hy]%elem_of_app.
    + specialize (Hle y Hy). lia.
    + apply list_elem_of_singleton in Hy. lia.
Qed.

Lemma is_maximum_snoc a b l :
  is_maximum a l → is_maximum (Z.max a b) (l ++ [b]).
Proof.
  intros [Hin Hle]. split.
  - destruct (Z.max_spec a b) as [[_ ->]|[_ ->]]; set_solver.
  - intros y [Hy|Hy]%elem_of_app.
    + specialize (Hle y Hy). lia.
    + apply list_elem_of_singleton in Hy. lia.
Qed.

Lemma is_minimum_singleton a : is_minimum a [a].
Proof. split; [set_solver|]. intros y Hy%list_elem_of_singleton. lia. Qed.

Lemma is_maximum_singleton a : is_maximum a [a].
Proof. split; [set_solver|]. intros y Hy%list_elem_of_singleton. lia. Qed.

Lemma foldl_union_rect r rects :
  let u := foldl union_rect r rects in
  is_minimum (RECT.left u) (RECT.left <$> r :: rects) ∧
  is_minimum (RECT.top u) (RECT.top <$> r :: rects) ∧
  is_maximum (RECT.right u) (RECT.right <$> r :: rects) ∧
  is_maximum (RECT.bottom u) (RECT.bottom <$> r :: rects).
Proof.
  induction rects as [|x rects IH] using rev_ind; simpl.
  - auto using is_minimum_singleton, is_maximum_singleton.
  - rewrite foldl_app. simpl. rewrite !fmap_app. simpl.
    destruct IH as (Hl & Ht & Hr & Hb).
    split_and!;
      [ apply (is_minimum_snoc _ _ (_ :: _)) | apply (is_minimum_snoc _ _ (_ :: _))
      | apply (is_maximum_snoc _ _ (_ :: _)) | apply (is_maximum_snoc _ _ (_ :: _)) ];
      assumption.
Qed.

(** The combined rectangle of a set of rectangles that is not empty: the
    least left and top, the greatest right and bottom. *)
Lemma combined_rect_bounds rects :
  rects ≠ [] →
  is_minimum (RECT.left (combined_rect rects)) (RECT.left <$> rects) ∧
  is_minimum (RECT.top (combined_rect rects)) (RECT.top <$> rects) ∧
  is_maximum (RECT.right (combined_rect rects)) (RECT.right <$> rects) ∧
  is_maximum (RECT.bottom (combined_rect rects)) (RECT.bottom <$> rects).
Proof.
  destruct rects as [|r rects]; [done|]. intros _. apply foldl_union_rect.
Qed.

(** C3.  A spanned snapshot holds one record: it carries the reserved
    name, is selected and has DPI 0; its top, left, width and height are
    those of the rectangle combined from the work areas of all monitors
    (least left and top, greatest right and bottom), and its monitor
    width and height those of the rectangle combined from their full
    bounds.  The work areas are the ones reported to the executor's
    thread, the bounds the ones reported to the caller's thread. *)
Theorem Save_spanned_record d os w args :
  settings_spanZonesAcrossMonitors os = true →
  Saved d os w args →
  ∃ r,
    JsonUtils.monitors args = [r] ∧
    JsonUtils.monitorName r = MultiMonitorDeviceID d ∧
    JsonUtils.isSelected r = true ∧
    JsonUtils.dpi r = 0 ∧
    (let works := (λ md, rcWork md.2) <$> display_monitors os unaware_mixed in
     works ≠ [] →
     ∃ left top right bottom,
       is_minimum left (RECT.left <$> works) ∧
       is_minimum top (RECT.top <$> works) ∧
       is_maximum right (RECT.right <$> works) ∧
       is_maximum bottom (RECT.bottom <$> works) ∧
       JsonUtils.top r = top ∧
       JsonUtils.left r = left ∧
       JsonUtils.workAreaWidth r = int_sub right left ∧
       JsonUtils.workAreaHeight r = int_sub bottom top) ∧
    (let bounds := (λ md, rcMonitor md.2) <$> display_monitors os (caller_dpi w) in
     bounds ≠ [] →
     ∃ left top right bottom,
       is_minimum left (RECT.left <$> bounds) ∧
       is_minimum top (RECT.top <$> bounds) ∧
       is_maximum right (RECT.right <$> bounds) ∧
       is_maximum bottom (RECT.bottom <$> bounds) ∧
       JsonUtils.monitorWidth r = int_sub right left ∧
       JsonUtils.monitorHeight r = int_sub bottom top).
Proof.
  intros Hspan HS.
  destruct (Saved_spanned d os w args Hspan HS) as (vd & _ & ->).
  eexists. split; [reflexivity|]. simpl. split_and!; try reflexivity.
  - intros Hne. destruct (combined_rect_bounds _ Hne) as (Hl & Ht & Hr & Hb).
    do 4 eexists. split_and!; try eassumption; reflexivity.
  - intros Hne. destruct (combined_rect_bounds _ Hne) as (Hl & Ht & Hr & Hb).
    do 4 eexists. split_and!; try eassumption; reflexivity.
Qed.

Example Saved_spanned_desk :
  Saved Sample.declared Sample.spanned_desk Sample.world Sample.spanned_desk_args.
Proof. split; reflexivity. Qed.

Example Saved_spanned_twins :
  Saved Sample.declared Sample.spanned_twins Sample.world Sample.spanned_twins_args.
Proof. split; reflexivity. Qed.

Lemma Save_spanned_record_witness :
  ∃ r, JsonUtils.monitors Sample.spanned_desk_args = [r] ∧
       JsonUtils.isSelected r = true ∧ JsonUtils.dpi r = 0.
Proof.
  destruct (Save_spanned_record Sample.declared Sample.spanned_desk Sample.world
              Sample.spanned_desk_args) as (r & Hr & _ & Hsel & Hdpi & _).
  - reflexivity.
  - split; reflexivity.
  - exists r. auto.
Defined.

(** ** The selected monitor *)

Section Selected.
Context (d : Declared) (os : OS) (vd : string) (target : HMONITOR).

Local Notation "'step'" := (monitor_iteration d os vd target).

Lemma iteration_selected mons i h info r :
  mons !! i = Some (h, info) →
  iteration_output d os vd target mons i = Some r →
  JsonUtils.isSelected r = bool_decide (h = target) ∧
  ∃ dpi, GetScreenDPIForMonitor os h = Some dpi ∧ JsonUtils.dpi r = wrap_int dpi.
Proof.
  intros Hi Hr. rewrite (iteration_output_eq _ _ _ _ _ _ _ _ Hi) in Hr.
  destruct (GetScreenDPIForMonitor os h) as [dpi|]; [|done].
  simpl in Hr. injection Hr as <-. simpl. eauto.
Qed.

Local Notation "'chosen_and_reported'" := (chosen_and_reported os target).

Lemma step_selected_count m md :
  selected_count (option_list (head (step (m, []) md).2)) =
    length (filter chosen_and_reported [md]).
Proof.
  unfold monitor_iteration, GetDisplayDeviceId, chosen_and_reported. simpl.
  destruct (GetScreenDPIForMonitor os md.1) as [dpi|] eqn:Hdpi; simpl.
  - destruct (Convert os md.1 _ _). simpl. unfold selected_count.
    destruct (decide (md.1 = target)) as [Heq|Hne].
    + rewrite filter_cons_True by (simpl; by rewrite bool_decide_true).
      rewrite filter_cons_True by (simpl; rewrite Hdpi; eauto). done.
    + rewrite filter_cons_False by (simpl; by rewrite bool_decide_false).
      rewrite filter_cons_False by (simpl; tauto). done.
  - rewrite filter_cons_False; [done|]. simpl. rewrite Hdpi.
    intros [_ []]. done.
Qed.

Lemma loop_selected_count mons :
  selected_count (loop_state d os vd target mons).2 =
    length (filter chosen_and_reported mons).
Proof.
  induction mons as [|md mons IH] using rev_ind; [done|].
  rewrite loop_state_snoc, filter_app, length_app, <- IH.
  destruct (loop_state d os vd target mons) as [m acc].
  rewrite <- (step_selected_count m md), monitor_iteration_monitors.
  unfold selected_count. rewrite filter_app, length_app. reflexivity.
Qed.

End Selected.

Lemma filter_none {A} (P : A → Prop) `{!∀ x, Decision (P x)} (l : list A) :
  (∀ x, x ∈ l → ¬ P x) → filter P l = [].
Proof.
  induction l as [|x l IH]; [done|]. intros HP.
  rewrite filter_cons_False by (apply HP; left).
  apply IH. intros y Hy. apply HP. by right.
Qed.

Lemma filter_handle_absent (mons : list (HMONITOR * MONITORINFOEX)) h :
  h ∉ mons.*1 → filter (λ md, md.1 = h) mons = [].
Proof.
  intros Hnot. apply filter_none. intros md Hmd Heq. apply Hnot.
  rewrite <- Heq. by apply list_elem_of_fmap_2.
Qed.

Lemma filter_handle_once (mons : list (HMONITOR * MONITORINFOEX)) h :
  NoDup mons.*1 → h ∈ mons.*1 → length (filter (λ md, md.1 = h) mons) = 1%nat.
Proof.
  induction mons as [|md mons IH]; simpl.
  - intros _ Hin. by apply elem_of_nil in Hin.
  - intros [Hnot Hnd]%NoDup_cons Hin.
    destruct (decide (md.1 = h)) as [Heq|Hne].
    + rewrite filter_cons_True by done. simpl.
      rewrite filter_handle_absent; [done|]. by rewrite <- Heq.
    + rewrite filter_cons_False by done. apply IH; [done|].
      apply elem_of_cons in Hin as [Hin|Hin]; [congruence|done].
Qed.

(** C2, as the code has it.  In a snapshot without spanning a record is
    selected exactly when the handle of its monitor is the one the policy
    chose.  The selected records are as many as the enumerated monitors with
    that handle that report their DPI: none when the chosen monitor is not
    enumerated or does not report its DPI, one when it is enumerated once
    and reports it. *)
Theorem Save_selected d os w args :
  settings_spanZonesAcrossMonitors os = false →
  Saved d os w args →
  let mons := display_monitors os unaware_mixed in
  let target := select_target os in
  ∃ vd,
    currentVirtualDesktopId os = Some vd ∧
    JsonUtils.monitors args =
      omap (iteration_output d os vd target mons) (seq 0 (length mons)) ∧
    (∀ i h info r,
       mons !! i = Some (h, info) →
       iteration_output d os vd target mons i = Some r →
       (JsonUtils.isSelected r = true ↔ h = target)) ∧
    (GetScreenDPIForMonitor os target = None →
       selected_count (JsonUtils.monitors args) = 0%nat) ∧
    (target ∉ mons.*1 → selected_count (JsonUtils.monitors args) = 0%nat) ∧
    (NoDup mons.*1 → target ∈ mons.*1 →
       is_Some (GetScreenDPIForMonitor os target) →
       selected_count (JsonUtils.monitors args) = 1%nat).
Proof.
  intros Hspan HS mons target.
  destruct (Saved_monitors d os w args Hspan HS) as (vd & Hvd & _ & ->).
  exists vd. simpl. split_and!; try done.
  - intros i h info r Hi Hr.
    destruct (iteration_selected d os vd target mons i h info r Hi Hr) as [-> _].
    by rewrite bool_decide_eq_true.
  - intros Hdpi. fold mons target. rewrite <- loop_monitors, loop_selected_count.
    rewrite filter_none; [done|].
    intros md _ [Heq [x Hx]]. rewrite Heq in Hx. congruence.
  - intros Hnot. fold mons target. rewrite <- loop_monitors, loop_selected_count.
    rewrite filter_none; [done|].
    intros md Hmd [Heq _]. apply Hnot. rewrite <- Heq.
    by apply list_elem_of_fmap_2.
  - intros Hnd Hin Hdpi. fold mons target.
    rewrite <- loop_monitors, loop_selected_count.
    rewrite <- (filter_handle_once mons target Hnd Hin). f_equal.
    apply list_filter_iff. intros md. unfold chosen_and_reported.
    split; [tauto|]. intros Heq. split; [done|]. by rewrite Heq.
Qed.

Lemma Save_selected_witness :
  selected_count (JsonUtils.monitors Sample.desk_args) = 1%nat.
Proof.
  destruct (Save_selected Sample.declared Sample.desk Sample.world Sample.desk_args)
    as (vd & _ & _ & _ & _ & _ & Hone).
  - reflexivity.
  - split; reflexivity.
  - apply Hone.
    + by apply (bool_decide_unpack _).
    + by apply (bool_decide_unpack _).
    + vm_compute. eauto.
Defined.

(** C2, as stated, fails: the monitor under the pointer is enumerated but
    does not report its DPI, the snapshot is written, and no record in it
    is selected. *)
Lemma Save_selected_counterexample :
  settings_spanZonesAcrossMonitors Sample.desk_dpi_failure = false ∧
  select_target Sample.desk_dpi_failure = 1 ∧
  Saved Sample.declared Sample.desk_dpi_failure Sample.world
    Sample.desk_dpi_failure_args ∧
  selected_count (JsonUtils.monitors Sample.desk_dpi_failure_args) ≠ 1%nat.
Proof. split_and!; [reflexivity|reflexivity|split; reflexivity|by vm_compute]. Qed.

(** ** Monitors that do not report their DPI *)

Lemma Saved_monitors_intro d os w vd :
  currentVirtualDesktopId os = Some vd →
  settings_spanZonesAcrossMonitors os = false →
  select_target os ≠ 0 →
  Saved d os w
    {| JsonUtils.processId := GetCurrentProcessId os;
       JsonUtils.spanZonesAcrossMonitors := false;
       JsonUtils.monitors :=
         omap (iteration_output d os vd (select_target os)
                 (display_monitors os unaware_mixed))
              (seq 0 (length (display_monitors os unaware_mixed))) |}.
Proof.
  intros Hvd Hspan Ht. unfold Saved.
  rewrite (Save_monitors d os w vd Hvd Hspan Ht). simpl.
  by rewrite loop_monitors.
Qed.

Lemma iteration_output_reported d os vd target mons i h info :
  mons !! i = Some (h, info) →
  is_Some (iteration_output d os vd target mons i) ↔
  is_Some (GetScreenDPIForMonitor os h).
Proof.
  intros Hi. rewrite (iteration_output_eq _ _ _ _ _ _ _ _ Hi).
  destruct (GetScreenDPIForMonitor os h); simpl; [|done].
  split; eauto.
Qed.

(** The record of a monitor depends on the DPI query through the answer
    for that monitor alone. *)
Lemma iteration_output_other_answers d os vd target mons i h info dpis :
  mons !! i = Some (h, info) →
  dpis h = GetScreenDPIForMonitor os h →
  iteration_output d (with_GetScreenDPIForMonitor dpis os) vd target mons i =
    iteration_output d os vd target mons i.
Proof.
  intros Hi Hsame. rewrite !(iteration_output_eq _ _ _ _ _ _ _ _ Hi).
  simpl. by rewrite Hsame.
Qed.

(** C4.  A monitor whose DPI query fails has no record in the snapshot;
    every record carries the DPI its monitor reported; every monitor that
    reports its DPI has its record in the snapshot, in the order of the
    enumeration; and the record of a monitor, its selection included, is
    the same whatever the query answers for the other monitors. *)
Theorem Save_dpi_failure d os w args :
  settings_spanZonesAcrossMonitors os = false →
  Saved d os w args →
  let mons := display_monitors os unaware_mixed in
  let target := select_target os in
  ∃ vd,
    currentVirtualDesktopId os = Some vd ∧
    JsonUtils.monitors args =
      omap (iteration_output d os vd target mons) (seq 0 (length mons)) ∧
    (∀ i h info,
       mons !! i = Some (h, info) →
       GetScreenDPIForMonitor os h = None →
       iteration_output d os vd target mons i = None) ∧
    (∀ i h info r,
       mons !! i = Some (h, info) →
       iteration_output d os vd target mons i = Some r →
       ∃ dpi, GetScreenDPIForMonitor os h = Some dpi ∧
              JsonUtils.dpi r = wrap_int dpi) ∧
    (∀ i h info,
       mons !! i = Some (h, info) →
       is_Some (GetScreenDPIForMonitor os h) →
       ∃ r, iteration_output d os vd target mons i = Some r ∧
            r ∈ JsonUtils.monitors args) ∧
    (∀ dpis i h info,
       mons !! i = Some (h, info) →
       dpis h = GetScreenDPIForMonitor os h →
       iteration_output d (with_GetScreenDPIForMonitor dpis os) vd target mons i =
         iteration_output d os vd target mons i).
Proof.
  intros Hspan HS mons target.
  destruct (Saved_monitors d os w args Hspan HS) as (vd & Hvd & _ & ->).
  exists vd. simpl. split_and!; try done.
  - intros i h info Hi Hdpi.
    destruct (iteration_output d os vd target mons i) as [r|] eqn:Hr; [|done].
    assert (is_Some (GetScreenDPIForMonitor os h)) as [x Hx].
    { eapply iteration_output_reported; eauto. }
    congruence.
  - intros i h info r Hi Hr. by eapply iteration_selected.
  - intros i h info Hi Hdpi.
    apply (iteration_output_reported d os vd target mons i h info Hi) in Hdpi.
    destruct Hdpi as [r Hr]. exists r. split; [done|].
    apply elem_of_outputs. eauto.
  - intros dpis i h info. apply iteration_output_other_answers.
Qed.

Lemma Save_dpi_failure_witness :
  ∃ vd,
    currentVirtualDesktopId Sample.desk_dpi_failure = Some vd ∧
    iteration_output Sample.declared Sample.desk_dpi_failure vd 1
      (Sample.two_monitors unaware_mixed) 0 = None.
Proof.
  destruct (Save_dpi_failure Sample.declared Sample.desk_dpi_failure Sample.world
              Sample.desk_dpi_failure_args) as (vd & Hvd & _ & Hnone & _).
  - reflexivity.
  - split; reflexivity.
  - exists vd. split; [exact Hvd|].
    apply (Hnone 0%nat 1 Sample.left_monitor); reflexivity.
Defined.

(** ** Device names *)

Lemma string_app_cons a (s1 s2 : string) : String a s1 +:+ s2 = String a (s1 +:+ s2).
Proof. reflexivity. Qed.

Lemma string_app_assoc (s1 s2 s3 : string) :
  (s1 +:+ s2) +:+ s3 = s1 +:+ (s2 +:+ s3).
Proof.
  induction s1 as [|a s1 IH]; [done|]. by rewrite !string_app_cons, IH.
Qed.

Lemma string_app_empty_r (s : string) : s +:+ "" = s.
Proof. induction s as [|a s IH]; [done|]. by rewrite string_app_cons, IH. Qed.

Lemma strip_prefix_app p s : strip_prefix p (p +:+ s) = Some s.
Proof.
  induction p as [|a p IH]; [by destruct s|].
  rewrite string_app_cons. simpl. by rewrite decide_True.
Qed.

Lemma strip_prefix_long p s suffix :
  (String.length p ≤ String.length s)%nat →
  strip_prefix p (s +:+ suffix) = (λ rest, rest +:+ suffix) <$> strip_prefix p s.
Proof.
  revert s. induction p as [|a p IH]; intros s Hlen; [done|].
  destruct s as [|b s]; simpl in Hlen; [lia|].
  rewrite string_app_cons. simpl. destruct (decide (a = b)); [|done].
  apply IH. lia.
Qed.

Lemma TrimDeviceId_decorated d s : TrimDeviceId d (decoration d +:+ s) = s.
Proof. unfold TrimDeviceId. by rewrite strip_prefix_app. Qed.

(** Trimming works on the front of the identifier: what is appended to an
    identifier that is not shorter than the decoration stays in place. *)
Lemma TrimDeviceId_suffix d s suffix :
  (String.length (decoration d) ≤ String.length s)%nat →
  TrimDeviceId d (s +:+ suffix) = TrimDeviceId d s +:+ suffix.
Proof.
  intros Hlen. unfold TrimDeviceId. rewrite strip_prefix_long by done.
  by destruct (strip_prefix (decoration d) s).
Qed.

Lemma app_empty_inv (s suffix : string) : s = s +:+ suffix → suffix = "".
Proof.
  intros Heq. apply (String.app_inj s). by rewrite string_app_empty_r.
Qed.

Lemma occurrences_before_S mons i h info device :
  mons !! i = Some (h, info) →
  occurrences_before mons (S i) device =
    (occurrences_before mons i device
     + if decide (szDevice info = device) then 1 else 0)%N.
Proof.
  intros Hi. unfold occurrences_before.
  rewrite (take_S_r _ _ _ Hi), filter_app, length_app.
  destruct (decide (szDevice info = device)).
  - rewrite filter_cons_True by done. simpl. lia.
  - rewrite filter_cons_False by done. simpl. lia.
Qed.

Lemma occurrences_before_mono mons i j device :
  (i ≤ j)%nat →
  (occurrences_before mons i device ≤ occurrences_before mons j device)%N.
Proof.
  induction 1 as [|j Hle IH]; [done|].
  destruct (mons !! j) as [[h info]|] eqn:Hj.
  - rewrite (occurrences_before_S _ _ _ _ _ Hj). lia.
  - unfold occurrences_before in *.
    apply lookup_ge_None in Hj.
    rewrite (take_ge mons (S j)) by lia. by rewrite (take_ge mons j) in IH by lia.
Qed.

Lemma occurrences_before_lt mons i j h info :
  (i < j)%nat →
  mons !! i = Some (h, info) →
  (occurrences_before mons i (szDevice info)
   < occurrences_before mons j (szDevice info))%N.
Proof.
  intros Hlt Hi.
  pose proof (occurrences_before_mono mons (S i) j (szDevice info) Hlt) as Hle.
  rewrite (occurrences_before_S _ _ _ _ _ Hi), decide_True in Hle by done. lia.
Qed.

(** The name of a record: the trimmed identifier, with the index suffix
    when monitors with the same device name came before, whether or not
    they reported their DPI. *)
Lemma iteration_name d os vd target mons i h info r :
  mons !! i = Some (h, info) →
  iteration_output d os vd target mons i = Some r →
  let k := occurrences_before mons i (szDevice info) in
  JsonUtils.monitorName r =
    TrimDeviceId d
      (if decide (k = 0%N) then szDevice info
       else szDevice info +:+ index_suffix d k).
Proof.
  intros Hi Hr. rewrite (iteration_output_eq _ _ _ _ _ _ _ _ Hi) in Hr.
  destruct (GetScreenDPIForMonitor os h) as [dpi|]; [|done].
  simpl in Hr. by injection Hr as <-.
Qed.

(** C5.  Let the index suffixes be distinct and not empty.  Two monitors
    of one snapshot that share a device identifier, not shorter than the
    decoration, receive different names.  A first occurrence keeps the
    trimmed identifier; a later one has the suffix of the number of
    monitors with that identifier before it appended.  The count starts
    anew with every call: a second call right after the first writes the
    same record. *)
Theorem Save_device_names d os w args :
  (∀ k, k ≠ 0%N → index_suffix d k ≠ "") →
  (∀ j k, j ≠ 0%N → k ≠ 0%N → index_suffix d j = index_suffix d k → j = k) →
  settings_spanZonesAcrossMonitors os = false →
  Saved d os w args →
  let mons := display_monitors os unaware_mixed in
  let target := select_target os in
  ∃ vd,
    currentVirtualDesktopId os = Some vd ∧
    JsonUtils.monitors args =
      omap (iteration_output d os vd target mons) (seq 0 (length mons)) ∧
    (∀ i j hi hj info_i info_j ri rj base,
       (i < j)%nat →
       mons !! i = Some (hi, info_i) →
       mons !! j = Some (hj, info_j) →
       szDevice info_i = base →
       szDevice info_j = base →
       (String.length (decoration d) ≤ String.length base)%nat →
       iteration_output d os vd target mons i = Some ri →
       iteration_output d os vd target mons j = Some rj →
       let ki := occurrences_before mons i base in
       let kj := occurrences_before mons j base in
       JsonUtils.monitorName ri ≠ JsonUtils.monitorName rj ∧
       (ki = 0%N → JsonUtils.monitorName ri = TrimDeviceId d base) ∧
       (ki ≠ 0%N →
          JsonUtils.monitorName ri = TrimDeviceId d base +:+ index_suffix d ki) ∧
       kj ≠ 0%N ∧ kj ≠ ki ∧
       JsonUtils.monitorName rj = TrimDeviceId d base +:+ index_suffix d kj) ∧
    Saved d os (Save d os w).2 args.
Proof.
  intros Hnonempty Hdistinct Hspan HS mons target.
  destruct (Saved_monitors d os w args Hspan HS) as (vd & Hvd & Ht & Hargs).
  exists vd. split_and!; [done|by subst args| |].
  - intros i j hi hj info_i info_j ri rj base Hlt Hi Hj Hdi Hdj Hlen Hri Hrj ki kj.
    pose proof (iteration_name d os vd target mons i hi info_i ri Hi Hri) as Hni.
    pose proof (iteration_name d os vd target mons j hj info_j rj Hj Hrj) as Hnj.
    pose proof (occurrences_before_lt mons i j hi info_i Hlt Hi) as Hk.
    simpl in Hni, Hnj. rewrite Hdi in Hni, Hk. rewrite Hdj in Hnj.
    fold ki in Hni, Hk. fold kj in Hnj, Hk.
    assert (kj ≠ 0%N) as Hkj by lia.
    rewrite decide_False, TrimDeviceId_suffix in Hnj by done.
    assert (JsonUtils.monitorName ri =
              if decide (ki = 0%N) then TrimDeviceId d base
              else TrimDeviceId d base +:+ index_suffix d ki) as Hni'.
    { rewrite Hni. destruct (decide (ki = 0%N)); [done|].
      by apply TrimDeviceId_suffix. }
    split_and!; try done; try lia.
    + rewrite Hni', Hnj. destruct (decide (ki = 0%N)) as [Hz|Hnz].
      * intros Heq%app_empty_inv. by apply (Hnonempty kj).
      * intros Heq%(String.app_inj (TrimDeviceId d base)).
        apply Hdistinct in Heq; [lia|done..].
    + intros Hz. by rewrite Hni', decide_True.
    + intros Hnz. by rewrite Hni', decide_False.
  - rewrite Hargs. by apply Saved_monitors_intro.
Qed.

Example device_names_desk :
  JsonUtils.monitorName <$> JsonUtils.monitors Sample.desk_args =
    [ TrimDeviceId Sample.declared "\\.\DISPLAY1";
      TrimDeviceId Sample.declared "\\.\DISPLAY1" +:+ index_suffix Sample.declared 1 ].
Proof. reflexivity. Qed.

Lemma Save_device_names_witness :
  Saved Sample.declared Sample.desk
    (Save Sample.declared Sample.desk Sample.world).2 Sample.desk_args.
Proof.
  destruct (Save_device_names Sample.declared Sample.desk Sample.world
              Sample.desk_args) as (vd & _ & _ & _ & Hagain).
  - intros k _. simpl. rewrite string_app_cons. discriminate.
  - intros j k _ _ Heq. simpl in Heq.
    apply (String.app_inj "_") in Heq. by apply (inj pretty) in Heq.
  - reflexivity.
  - split; reflexivity.
  - exact Hagain.
Defined.

(** An iteration that ends in [continue] has already taken its index. *)
Lemma monitor_iteration_skipped d os vd target m acc md :
  GetScreenDPIForMonitor os md.1 = None →
  monitor_iteration d os vd target (m, acc) md =
    (<[szDevice md.2 := (default 0%N (m !! szDevice md.2) + 1)%N]> m, acc).
Proof.
  intros Hdpi. unfold monitor_iteration, GetDisplayDeviceId. simpl.
  by rewrite Hdpi.
Qed.

(** C10.  The index of a device name is taken at the start of the
    iteration, before the DPI query: an iteration that ends in [continue]
    leaves the count advanced, so the count met by a monitor is the number
    of all monitors with its device name before it, and the suffix of its
    name follows that count.  With three monitors of one name, the middle
    one not reporting its DPI, the names written are the plain one and the
    one with suffix 2. *)
Theorem Save_index_consumed :
  (∀ d os w args,
     settings_spanZonesAcrossMonitors os = false →
     Saved d os w args →
     let mons := display_monitors os unaware_mixed in
     let target := select_target os in
     ∃ vd,
       currentVirtualDesktopId os = Some vd ∧
       JsonUtils.monitors args =
         omap (iteration_output d os vd target mons) (seq 0 (length mons)) ∧
       (∀ m acc md,
          GetScreenDPIForMonitor os md.1 = None →
          monitor_iteration d os vd target (m, acc) md =
            (<[szDevice md.2 := (default 0%N (m !! szDevice md.2) + 1)%N]> m, acc)) ∧
       (∀ i h info,
          mons !! i = Some (h, info) →
          default 0%N ((loop_state d os vd target (take i mons)).1 !! szDevice info) =
            occurrences_before mons i (szDevice info) ∧
          occurrences_before mons (S i) (szDevice info) =
            (occurrences_before mons i (szDevice info) + 1)%N) ∧
       (∀ i h info r,
          mons !! i = Some (h, info) →
          iteration_output d os vd target mons i = Some r →
          let k := occurrences_before mons i (szDevice info) in
          JsonUtils.monitorName r =
            TrimDeviceId d
              (if decide (k = 0%N) then szDevice info
               else szDevice info +:+ index_suffix d k))) ∧
  (Saved Sample.declared Sample.desk_middle_failure Sample.world
     Sample.desk_middle_failure_args ∧
   JsonUtils.monitorName <$> JsonUtils.monitors Sample.desk_middle_failure_args =
     ["DISPLAY1"; "DISPLAY1" +:+ index_suffix Sample.declared 2]).
Proof.
  split.
  - intros d os w args Hspan HS mons target.
    destruct (Saved_monitors d os w args Hspan HS) as (vd & Hvd & _ & ->).
    exists vd. split_and!; [done|done| | |].
    + intros m acc md. apply monitor_iteration_skipped.
    + intros i h info Hi. split.
      * apply loop_index.
      * by rewrite (occurrences_before_S _ _ _ _ _ Hi), decide_True.
    + intros i h info r. apply iteration_name.
  - split; [split; reflexivity|reflexivity].
Qed.

Lemma Save_index_consumed_witness :
  ∃ vd,
    currentVirtualDesktopId Sample.desk_middle_failure = Some vd ∧
    occurrences_before Sample.three_monitors 2 "\\.\DISPLAY1" = 2%N.
Proof.
  destruct (proj1 Save_index_consumed Sample.declared Sample.desk_middle_failure
              Sample.world Sample.desk_middle_failure_args)
    as (vd & Hvd & _ & _ & Hcount & _).
  - reflexivity.
  - split; reflexivity.
  - exists vd. split; [exact Hvd|].
    destruct (Hcount 1%nat 2 (Sample.monitor_info (RECT.mk 1920 0 3840 1080)
                (RECT.mk 1920 0 3840 1040) "\\.\DISPLAY1")) as [_ Hnext];
      [reflexivity|]. exact Hnext.
Defined.

(** ** Rounding the converted size *)

Lemma round_half_away_ratio n d :
  F32.round_half_away (n # d) =
    if 0 <=? n then (2 * n + Z.pos d) / (2 * Z.pos d)
    else - ((Z.pos d - 2 * n) / (2 * Z.pos d)).
Proof.
  unfold F32.round_half_away, Qceiling, Qfloor, Qle_bool, Qplus, Qminus, Qopp.
  simpl Qnum. simpl Qden.
  replace (0 * Z.pos d) with 0 by lia. replace (n * 1) with n by lia.
  rewrite Pos2Z.inj_mul.
  destruct (0 <=? n).
  - f_equal; lia.
  - do 2 f_equal; lia.
Qed.

Lemma round_half_away_inject z : F32.round_half_away (inject_Z z) = z.
Proof.
  unfold inject_Z. rewrite round_half_away_ratio.
  destruct (0 <=? z).
  - replace (2 * z + 1) with (1 + z * 2) by lia.
    rewrite Z.div_add by lia. reflexivity.
  - replace (1 - 2 * z) with (1 + (- z) * 2) by lia.
    rewrite Z.div_add by lia. change (1 / (2 * 1)) with 0. lia.
Qed.

Lemma pow2_half k : 0 < k → 2 ^ k = 2 * (2 ^ k / 2) ∧ 0 < 2 ^ k / 2.
Proof.
  intros Hk. replace k with (Z.succ (k - 1)) by lia.
  rewrite Z.pow_succ_r by lia.
  replace (2 * 2 ^ (k - 1)) with (2 ^ (k - 1) * 2) at 2 3 by lia.
  rewrite Z.div_mul by lia. split; [lia|]. apply Z.pow_pos_nonneg; lia.
Qed.

Lemma to_int_in_range s m e :
  let v := cond_Zopp s (if 0 <=? e then Z.pos m * 2 ^ e else Z.pos m / 2 ^ (- e)) in
  in_int v → F32.to_int (S754_finite s m e) = v.
Proof.
  intros v [Hlo Hhi]. unfold F32.to_int. fold v.
  apply Z.leb_le in Hlo, Hhi. by rewrite Hlo, Hhi.
Qed.

(** The value [roundf] returns for a float with a fraction, read back by
    the conversion to [int]. *)
Lemma to_int_roundf_fraction s m e :
  e < 0 →
  let q := (Z.pos m + 2 ^ (- e) / 2) / 2 ^ (- e) in
  in_int (cond_Zopp s q) →
  F32.to_int (F32.roundf (S754_finite s m e)) = cond_Zopp s q.
Proof.
  intros He q. unfold F32.roundf.
  replace (0 <=? e) with false by (symmetry; by apply Z.leb_gt).
  fold q. assert (0 ≤ q) as Hpos.
  { destruct (pow2_half (- e)) as [Hd Hd2]; [lia|]. apply Z.div_pos; lia. }
  revert Hpos. generalize q. clear q. intros [|p|p] Hpos Hq.
  - by destruct s.
  - rewrite to_int_in_range; simpl; by rewrite Z.pow_0_r, Z.mul_1_r.
  - lia.
Qed.

Lemma round_half_away_fraction s m e :
  e < 0 →
  F32.round_half_away (F32.to_Q (S754_finite s m e)) =
    cond_Zopp s ((Z.pos m + 2 ^ (- e) / 2) / 2 ^ (- e)).
Proof.
  intros He. unfold F32.to_Q.
  replace (0 <=? e) with false by (symmetry; by apply Z.leb_gt).
  destruct (pow2_half (- e)) as [Hd Hd2]; [lia|].
  set (d := 2 ^ (- e)) in *. set (d2 := d / 2) in *.
  rewrite round_half_away_ratio, Z2Pos.id by lia.
  destruct s; simpl.
  - replace (d - 2 * - Z.pos m) with (2 * (Z.pos m + d2)) by lia.
    by rewrite Z.div_mul_cancel_l by lia.
  - replace (2 * Z.pos m + d) with (2 * (Z.pos m + d2)) by lia.
    by rewrite Z.div_mul_cancel_l by lia.
Qed.

(** [static_cast<int>(std::roundf(x))] is [x] rounded to the nearest
    integer, halfway cases away from zero, whenever that integer is an
    [int]. *)
Lemma to_int_roundf x :
  F32.is_finite x = true →
  in_int (F32.round_half_away (F32.to_Q x)) →
  F32.to_int (F32.roundf x) = F32.round_half_away (F32.to_Q x).
Proof.
  destruct x as [s|s| |s m e]; try done.
  intros _. destruct (Z.leb_spec 0 e) as [He|He].
  - unfold F32.roundf, F32.to_Q.
    replace (0 <=? e) with true by (symmetry; by apply Z.leb_le).
    rewrite round_half_away_inject. intros Hv.
    rewrite to_int_in_range;
      replace (0 <=? e) with true by (symmetry; by apply Z.leb_le); done.
  - rewrite round_half_away_fraction by done. by apply to_int_roundf_fraction.
Qed.

Example round_half_away_samples :
  F32.round_half_away (5 # 2) = 3 ∧ F32.round_half_away (-5 # 2) = -3 ∧
  F32.round_half_away (7 # 3) = 2 ∧ F32.round_half_away (-7 # 3) = -2 ∧
  F32.round_half_away (1 # 2) = 1 ∧ F32.round_half_away (-1 # 2) = -1 ∧
  F32.round_half_away (49 # 100) = 0.
Proof. by vm_compute. Qed.

Lemma wrap_int_exact z : in_int z → wrap_int z = z.
Proof.
  unfold in_int, INT_MIN, INT_MAX, wrap_int. intros Hz.
  rewrite Z.mod_small; lia.
Qed.

Lemma int_sub_exact a b : in_int (a - b) → int_sub a b = a - b.
Proof. apply wrap_int_exact. Qed.

(** C6.  A record of a snapshot without spanning takes top and left from
    the work area as enumerated and forms the work-area width and height
    by subtracting its edges.  Its monitor width and height are what
    [DPIAware::Convert] makes of the width and height of the full bounds,
    rounded to the nearest integer with halfway cases away from zero. *)
Theorem Save_geometry d os w args :
  settings_spanZonesAcrossMonitors os = false →
  Saved d os w args →
  let mons := display_monitors os unaware_mixed in
  let target := select_target os in
  ∃ vd,
    currentVirtualDesktopId os = Some vd ∧
    JsonUtils.monitors args =
      omap (iteration_output d os vd target mons) (seq 0 (length mons)) ∧
    ∀ i h info r,
      mons !! i = Some (h, info) →
      iteration_output d os vd target mons i = Some r →
      let work := rcWork info in
      let bounds := rcMonitor info in
      let converted :=
        Convert os h
          (F32.of_int (int_sub (RECT.right bounds) (RECT.left bounds)))
          (F32.of_int (int_sub (RECT.bottom bounds) (RECT.top bounds))) in
      JsonUtils.top r = RECT.top work ∧
      JsonUtils.left r = RECT.left work ∧
      JsonUtils.workAreaWidth r = int_sub (RECT.right work) (RECT.left work) ∧
      JsonUtils.workAreaHeight r = int_sub (RECT.bottom work) (RECT.top work) ∧
      (in_int (RECT.right work - RECT.left work) →
         JsonUtils.workAreaWidth r = RECT.right work - RECT.left work) ∧
      (in_int (RECT.bottom work - RECT.top work) →
         JsonUtils.workAreaHeight r = RECT.bottom work - RECT.top work) ∧
      JsonUtils.monitorWidth r = F32.to_int (F32.roundf converted.1) ∧
      JsonUtils.monitorHeight r = F32.to_int (F32.roundf converted.2) ∧
      (F32.is_finite converted.1 = true →
       in_int (F32.round_half_away (F32.to_Q converted.1)) →
         JsonUtils.monitorWidth r = F32.round_half_away (F32.to_Q converted.1)) ∧
      (F32.is_finite converted.2 = true →
       in_int (F32.round_half_away (F32.to_Q converted.2)) →
         JsonUtils.monitorHeight r = F32.round_half_away (F32.to_Q converted.2)).
Proof.
  intros Hspan HS mons target.
  destruct (Saved_monitors d os w args Hspan HS) as (vd & Hvd & _ & ->).
  exists vd. split_and!; [done|done|].
  intros i h info r Hi Hr work bounds converted.
  rewrite (iteration_output_eq _ _ _ _ _ _ _ _ Hi) in Hr.
  destruct (GetScreenDPIForMonitor os h) as [dpi|]; [|done].
  simpl in Hr. injection Hr as <-. simpl.
  split_and!; try reflexivity.
  - apply int_sub_exact.
  - apply int_sub_exact.
  - apply to_int_roundf.
  - apply to_int_roundf.
Qed.

Lemma Save_geometry_witness :
  ∃ vd,
    currentVirtualDesktopId Sample.desk = Some vd ∧
    ∀ r,
      iteration_output Sample.declared Sample.desk vd 1
        (Sample.two_monitors unaware_mixed) 1 = Some r →
      JsonUtils.workAreaWidth r = 1093 ∧ JsonUtils.monitorWidth r = 1366.
Proof.
  destruct (Save_geometry Sample.declared Sample.desk Sample.world Sample.desk_args)
    as (vd & Hvd & _ & Hgeo).
  - reflexivity.
  - split; reflexivity.
  - exists vd. split; [exact Hvd|]. intros r Hr.
    destruct (Hgeo 1%nat 2 Sample.right_monitor_unaware r eq_refl Hr)
      as (_ & _ & _ & _ & Hw & _ & _ & _ & Hmw & _).
    split.
    + apply Hw. by vm_compute.
    + rewrite Hmw; [by vm_compute|reflexivity|by vm_compute].
Defined.

(** ** Two runs *)

Lemma without_process_id_args p1 p2 span monitors :
  without_process_id
    (JsonUtils.EditorArgs_ToJson
       {| JsonUtils.processId := p1; JsonUtils.spanZonesAcrossMonitors := span;
          JsonUtils.monitors := monitors |}) =
  without_process_id
    (JsonUtils.EditorArgs_ToJson
       {| JsonUtils.processId := p2; JsonUtils.spanZonesAcrossMonitors := span;
          JsonUtils.monitors := monitors |}).
Proof. by rewrite !EditorArgs_ToJson_eq. Qed.

(** C7.  Two calls in a row in the same surroundings, whose process id
    alone may differ, return the same value and leave the same files,
    the process id in the parameter record apart. *)
Theorem Save_twice d os pid w :
  let os' := with_GetCurrentProcessId pid os in
  let first := Save d os w in
  let second := Save d os' first.2 in
  second.1 = first.1 ∧
  (∀ f, f ≠ parameters_file os → files second.2 !! f = files first.2 !! f) ∧
  (∀ f, without_process_id <$> files second.2 !! f =
        without_process_id <$> files first.2 !! f) ∧
  (GetCurrentProcessId os = pid → files second.2 = files first.2).
Proof.
  intros os' first second. subst first second.
  assert (parameters_file os' = parameters_file os) as Hfile by reflexivity.
  destruct (currentVirtualDesktopId os) as [vd|] eqn:Hvd.
  - destruct (settings_spanZonesAcrossMonitors os) eqn:Hspan.
    + rewrite (Save_spanned d os w vd Hvd Hspan). simpl.
      rewrite (Save_spanned d os' _ vd Hvd Hspan). simpl. fold (parameters_file os).
      split_and!; [done| | |].
      * intros f Hf. by rewrite !lookup_insert_ne.
      * intros f. destruct (decide (parameters_file os = f)) as [<-|Hf].
        -- rewrite !lookup_insert_eq.
           exact (f_equal Some (without_process_id_args _ _ _ _)).
        -- by rewrite !lookup_insert_ne.
      * intros <-. by rewrite insert_insert_eq.
    + destruct (decide (select_target os = 0)) as [Ht|Ht].
      * rewrite (Save_no_target d os w vd Hvd Hspan Ht). simpl.
        by rewrite (Save_no_target d os' _ vd Hvd Hspan Ht).
      * rewrite (Save_monitors d os w vd Hvd Hspan Ht). simpl.
        rewrite (Save_monitors d os' _ vd Hvd Hspan Ht). simpl.
        fold (parameters_file os).
        change (loop_state d os' vd (select_target os') (display_monitors os' unaware_mixed))
          with (loop_state d os vd (select_target os) (display_monitors os unaware_mixed)).
        split_and!; [done| | |].
        -- intros f Hf. by rewrite !lookup_insert_ne.
        -- intros f. destruct (decide (parameters_file os = f)) as [<-|Hf].
           ++ rewrite !lookup_insert_eq.
           exact (f_equal Some (without_process_id_args _ _ _ _)).
           ++ by rewrite !lookup_insert_ne.
        -- intros <-. by rewrite insert_insert_eq.
  - rewrite (Save_no_identity d os w Hvd). simpl.
    by rewrite (Save_no_identity d os' _ Hvd).
Qed.

(** ** Where the enumerations run *)

Lemma new_calls_eq d os w evs :
  calls (Save d os w).2 = calls w ++ evs → new_calls d os w = evs.
Proof. intros Heq. unfold new_calls. by rewrite Heq, drop_app_length. Qed.

(** The calls of one run, by the way taken through [Save]. *)
Lemma new_calls_cases d os w :
  new_calls d os w =
    match currentVirtualDesktopId os with
    | None => []
    | Some _ =>
        if settings_spanZonesAcrossMonitors os then
          switch_calls os w
            ++ task_calls w (CallGetAllMonitorsCombinedRect member_rcWork)
            ++ [ {| ev_call := CallGetAllMonitorsCombinedRect member_rcMonitor;
                    ev_context := CallerThread; ev_dpi := caller_dpi w |} ]
        else
          switch_calls os w ++ task_calls w (CallGetAllMonitorInfo member_rcWork)
    end.
Proof.
  apply new_calls_eq.
  destruct (currentVirtualDesktopId os) as [vd|] eqn:Hvd.
  - destruct (settings_spanZonesAcrossMonitors os) eqn:Hspan.
    + by rewrite (Save_spanned d os w vd).
    + destruct (decide (select_target os = 0)) as [Ht|Ht].
      * by rewrite (Save_no_target d os w vd).
      * by rewrite (Save_monitors d os w vd).
  - rewrite Save_no_identity by done. simpl. by rewrite app_nil_r.
Qed.

Lemma caller_dpi_Save d os w : caller_dpi (Save d os w).2 = caller_dpi w.
Proof.
  destruct (currentVirtualDesktopId os) as [vd|] eqn:Hvd.
  - destruct (settings_spanZonesAcrossMonitors os) eqn:Hspan.
    + by rewrite (Save_spanned d os w vd).
    + destruct (decide (select_target os = 0)) as [Ht|Ht].
      * by rewrite (Save_no_target d os w vd).
      * by rewrite (Save_monitors d os w vd).
  - by rewrite Save_no_identity.
Qed.

(** C9, as the code has it.  The enumeration of the monitors and the
    spanned computation of the combined work area run on the executor's
    thread, switched to DPI-unaware and mixed hosting, while the caller
    waits.  The spanned computation of the combined full bounds runs on the
    caller's thread, in the caller's own DPI state, after the wait has
    returned.  The caller's DPI state is left as it was. *)
Theorem Save_enumerations d os w :
  running w = CallerThread →
  caller_waits false (new_calls d os w) = true ∧
  caller_dpi (Save d os w).2 = caller_dpi w ∧
  filter (λ e, is_enumeration (ev_call e) = true) (new_calls d os w) =
    match currentVirtualDesktopId os with
    | None => []
    | Some _ =>
        if settings_spanZonesAcrossMonitors os then
          [ {| ev_call := CallGetAllMonitorsCombinedRect member_rcWork;
               ev_context := DpiUnawareThread; ev_dpi := unaware_mixed |};
            {| ev_call := CallGetAllMonitorsCombinedRect member_rcMonitor;
               ev_context := CallerThread; ev_dpi := caller_dpi w |} ]
        else
          [ {| ev_call := CallGetAllMonitorInfo member_rcWork;
               ev_context := DpiUnawareThread; ev_dpi := unaware_mixed |} ]
    end ∧
  (∀ e, e ∈ new_calls d os w → is_enumeration (ev_call e) = true →
     ev_call e ≠ CallGetAllMonitorsCombinedRect member_rcMonitor →
     ev_context e = DpiUnawareThread ∧ ev_dpi e = unaware_mixed).
Proof.
  intros Hrun. rewrite new_calls_cases. split_and!.
  - unfold switch_calls, task_calls. rewrite Hrun.
    destruct (currentVirtualDesktopId os); [|done].
    by destruct (settings_spanZonesAcrossMonitors os).
  - apply caller_dpi_Save.
  - destruct (currentVirtualDesktopId os); [|done].
    by destruct (settings_spanZonesAcrossMonitors os).
  - intros e He Henum Hne.
    destruct (currentVirtualDesktopId os); [|by apply elem_of_nil in He].
    destruct (settings_spanZonesAcrossMonitors os);
      unfold switch_calls, task_calls in He; simpl in He;
      repeat (apply elem_of_cons in He as [->|He]; [done|]);
      by apply elem_of_nil in He.
Qed.

Lemma Save_enumerations_witness :
  caller_waits false (new_calls Sample.declared Sample.spanned_desk Sample.world) = true.
Proof.
  apply (Save_enumerations Sample.declared Sample.spanned_desk Sample.world).
  reflexivity.
Defined.

(** C9, as stated, fails: with spanning, the combined full bounds are
    computed on the caller's thread, which is not DPI-unaware. *)
Lemma Save_enumerations_counterexample :
  ∃ e,
    e ∈ new_calls Sample.declared Sample.spanned_desk Sample.world ∧
    is_enumeration (ev_call e) = true ∧
    ev_call e = CallGetAllMonitorsCombinedRect member_rcMonitor ∧
    ev_context e = CallerThread ∧
    ev_context e ≠ DpiUnawareThread ∧
    awareness (ev_dpi e) = DPI_AWARENESS_CONTEXT_PER_MONITOR_AWARE_V2 ∧
    ev_dpi e ≠ unaware_mixed.
Proof.
  exists {| ev_call := CallGetAllMonitorsCombinedRect member_rcMonitor;
            ev_context := CallerThread; ev_dpi := Sample.per_monitor_aware |}.
  split_and!; try done.
  rewrite new_calls_cases. apply list_elem_of_lookup. by exists 7%nat.
Qed.

(** * Further properties of [Save] *)

(** ** What a failing call has done *)



(** ** The head of the record *)

(** Whatever the mode, the record written carries the process id and the
    spanning flag of the call, and every monitor record in it carries the
    identity of the virtual desktop that was current. *)
Theorem Save_record_header d os w args :
  Saved d os w args →
  JsonUtils.processId args = GetCurrentProcessId os ∧
  JsonUtils.spanZonesAcrossMonitors args = settings_spanZonesAcrossMonitors os ∧
  ∃ vd,
    currentVirtualDesktopId os = Some vd ∧
    ∀ r, r ∈ JsonUtils.monitors args → JsonUtils.virtualDesktop r = vd.
Proof.
  intros HS. destruct (settings_spanZonesAcrossMonitors os) eqn:Hspan.
  - destruct (Saved_spanned d os w args Hspan HS) as (vd & Hvd & ->).
    simpl. split_and!; [done..|]. exists vd. split; [done|].
    by intros r ->%list_elem_of_singleton.
  - destruct (Saved_monitors d os w args Hspan HS) as (vd & Hvd & _ & ->).
    simpl. split_and!; [done..|]. exists vd. split; [done|].
    intros r [i Hr]%elem_of_outputs.
    destruct (display_monitors os unaware_mixed !! i) as [[h info]|] eqn:Hi.
    + rewrite (iteration_output_eq _ _ _ _ _ _ _ _ Hi) in Hr.
      destruct (GetScreenDPIForMonitor os h); [|done].
      simpl in Hr. by injection Hr as <-.
    + by rewrite iteration_output_None in Hr.
Qed.

Lemma Save_record_header_witness :
  JsonUtils.processId Sample.desk_args = 4242 ∧
  JsonUtils.spanZonesAcrossMonitors Sample.desk_args = false.
Proof.
  destruct (Save_record_header Sample.declared Sample.desk Sample.world
              Sample.desk_args) as (Hpid & Hspan & _).
  - split; reflexivity.
  - split; [exact Hpid|exact Hspan].
Defined.

(** ** Order and number of the records *)

Lemma step_place d os vd target m md :
  record_place <$> option_list (head (monitor_iteration d os vd target (m, []) md).2) =
    option_list (monitor_place os md).
Proof.
  unfold monitor_iteration, GetDisplayDeviceId, monitor_place. simpl.
  destruct (GetScreenDPIForMonitor os md.1) as [dpi|]; [|done]. simpl.
  by destruct (Convert os md.1 _ _).
Qed.

Lemma loop_places d os vd target mons :
  record_place <$> (loop_state d os vd target mons).2 = omap (monitor_place os) mons.
Proof.
  induction mons as [|md mons IH] using rev_ind; [done|].
  rewrite loop_state_snoc, omap_app, <- IH.
  destruct (loop_state d os vd target mons) as [m acc].
  rewrite monitor_iteration_monitors, fmap_app, step_place. simpl.
  by destruct (monitor_place os md).
Qed.

Lemma length_omap_filter {A B} (f : A → option B) (l : list A) :
  length (omap f l) = length (filter (λ x, is_Some (f x)) l).
Proof.
  induction l as [|x l IH]; [done|].
  change (omap f (x :: l)) with (from_option (λ y, y :: omap f l) (omap f l) (f x)).
  destruct (f x) as [y|] eqn:Hfx; simpl.
  - rewrite filter_cons_True by (rewrite Hfx; eauto). simpl. by rewrite IH.
  - rewrite filter_cons_False; [done|]. rewrite Hfx. by intros [].
Qed.

(** Without spanning the records follow the enumeration: seen through the
    place of the work area and the DPI, the list written is the list of
    the monitors with those that do not report their DPI left out.  There
    are as many records as monitors that report their DPI, never more than
    monitors, and one for each when all report it. *)
Theorem Save_records_in_order d os w args :
  settings_spanZonesAcrossMonitors os = false →
  Saved d os w args →
  let mons := display_monitors os unaware_mixed in
  record_place <$> JsonUtils.monitors args = omap (monitor_place os) mons ∧
  length (JsonUtils.monitors args) =
    length (filter (λ md, is_Some (GetScreenDPIForMonitor os md.1)) mons) ∧
  (length (JsonUtils.monitors args) ≤ length mons)%nat ∧
  ((∀ md, md ∈ mons → is_Some (GetScreenDPIForMonitor os md.1)) →
   length (JsonUtils.monitors args) = length mons).
Proof.
  intros Hspan HS mons.
  destruct (Saved_monitors d os w args Hspan HS) as (vd & Hvd & _ & ->).
  simpl. fold mons. rewrite <- loop_monitors.
  pose proof (loop_places d os vd (select_target os) mons) as Hplaces.
  assert (length (loop_state d os vd (select_target os) mons).2 =
            length (filter (λ md, is_Some (GetScreenDPIForMonitor os md.1)) mons))
    as Hlen.
  { rewrite <- (length_fmap record_place), Hplaces, length_omap_filter.
    f_equal. apply list_filter_iff. intros md. unfold monitor_place.
    destruct (GetScreenDPIForMonitor os md.1); simpl; [|done].
    split; eauto. }
  split_and!; [done|done| |].
  - rewrite Hlen. apply length_filter.
  - intros Hall. rewrite Hlen. f_equal.
    clear -Hall. induction mons as [|md mons IH]; [done|].
    rewrite filter_cons_True by (apply Hall; left).
    f_equal. apply IH. intros md' Hmd'. apply Hall. by right.
Qed.

Lemma Save_records_in_order_witness :
  record_place <$> JsonUtils.monitors Sample.desk_dpi_failure_args =
    [(1920, 0, 120)].
Proof.
  destruct (Save_records_in_order Sample.declared Sample.desk_dpi_failure
              Sample.world Sample.desk_dpi_failure_args) as (Hplaces & _).
  - reflexivity.
  - split; reflexivity.
  - exact Hplaces.
Defined.

(** ** What a call depends on *)

Lemma foldl_ext_in {A B} (f g : A → B → A) (a : A) (l : list B) :
  (∀ a x, x ∈ l → f a x = g a x) → foldl f a l = foldl g a l.
Proof.
  revert a. induction l as [|x l IH]; intros a Hfg; [done|]. simpl.
  rewrite (Hfg a x) by left. apply IH. intros a' y Hy. apply Hfg. by right.
Qed.

Lemma switch_calls_process_dpi os1 os2 w :
  process_dpi os1 = process_dpi os2 → switch_calls os1 w = switch_calls os2 w.
Proof. intros Heq. unfold switch_calls. by rewrite Heq. Qed.

Lemma parameters_file_folder os1 os2 :
  module_save_folder os1 = module_save_folder os2 →
  parameters_file os1 = parameters_file os2.
Proof. intros Heq. unfold parameters_file. by rewrite Heq. Qed.

(** With spanning, a call consults the identity, the process id, the
    settings folder and the monitors as reported to the executor's thread
    and to the caller's thread, and nothing else: neither the selection
    policy, nor the pointer, the window in front, the DPI query or the
    conversion.  Two surroundings that agree on the former give the same
    result and the same world. *)
Theorem Save_spanned_depends_on d os1 os2 w :
  settings_spanZonesAcrossMonitors os1 = true →
  settings_spanZonesAcrossMonitors os2 = true →
  currentVirtualDesktopId os1 = currentVirtualDesktopId os2 →
  GetCurrentProcessId os1 = GetCurrentProcessId os2 →
  process_dpi os1 = process_dpi os2 →
  module_save_folder os1 = module_save_folder os2 →
  display_monitors os1 unaware_mixed = display_monitors os2 unaware_mixed →
  display_monitors os1 (caller_dpi w) = display_monitors os2 (caller_dpi w) →
  Save d os1 w = Save d os2 w.
Proof.
  intros Hspan1 Hspan2 Hvd Hpid Hproc Hfolder Hunaware Hcaller.
  destruct (currentVirtualDesktopId os1) as [vd|] eqn:Hvd1; symmetry in Hvd.
  - rewrite (Save_spanned d os1 w vd Hvd1 Hspan1).
    rewrite (Save_spanned d os2 w vd Hvd Hspan2).
    by rewrite Hpid, Hunaware, Hcaller, (parameters_file_folder _ _ Hfolder),
      (switch_calls_process_dpi _ _ w Hproc).
  - by rewrite !Save_no_identity.
Qed.

Lemma Save_spanned_depends_on_witness :
  Save Sample.declared Sample.spanned_desk Sample.world =
    Save Sample.declared Sample.spanned_desk_blind Sample.world.
Proof.
  apply Save_spanned_depends_on; reflexivity.
Defined.

(** Without spanning, a call consults the identity, the process id, the
    settings folder, the monitor chosen by the selection policy, the
    monitors as reported to the executor's thread and, for each of those
    alone, the DPI query and the conversion of the two sizes of its
    bounds.  What the display reports to other threads, the DPI of a
    monitor that is not enumerated and the input of the policy that is
    not in force play no part. *)
Theorem Save_monitors_depends_on d os1 os2 w :
  settings_spanZonesAcrossMonitors os1 = false →
  settings_spanZonesAcrossMonitors os2 = false →
  currentVirtualDesktopId os1 = currentVirtualDesktopId os2 →
  GetCurrentProcessId os1 = GetCurrentProcessId os2 →
  process_dpi os1 = process_dpi os2 →
  module_save_folder os1 = module_save_folder os2 →
  select_target os1 = select_target os2 →
  display_monitors os1 unaware_mixed = display_monitors os2 unaware_mixed →
  (∀ h info,
     (h, info) ∈ display_monitors os1 unaware_mixed →
     GetScreenDPIForMonitor os1 h = GetScreenDPIForMonitor os2 h ∧
     Convert os1 h (bounds_width info) (bounds_height info) =
       Convert os2 h (bounds_width info) (bounds_height info)) →
  Save d os1 w = Save d os2 w.
Proof.
  intros Hspan1 Hspan2 Hvd Hpid Hproc Hfolder Htarget Hmons Hsame.
  destruct (currentVirtualDesktopId os1) as [vd|] eqn:Hvd1; symmetry in Hvd.
  - destruct (decide (select_target os1 = 0)) as [Ht|Ht].
    + rewrite (Save_no_target d os1 w vd Hvd1 Hspan1 Ht).
      rewrite Htarget in Ht.
      rewrite (Save_no_target d os2 w vd Hvd Hspan2 Ht).
      by rewrite (switch_calls_process_dpi _ _ w Hproc).
    + rewrite (Save_monitors d os1 w vd Hvd1 Hspan1 Ht).
      rewrite Htarget in Ht.
      rewrite (Save_monitors d os2 w vd Hvd Hspan2 Ht).
      assert (loop_state d os1 vd (select_target os1)
                (display_monitors os1 unaware_mixed) =
              loop_state d os2 vd (select_target os2)
                (display_monitors os2 unaware_mixed)) as ->.
      { rewrite <- Hmons, <- Htarget. unfold loop_state.
        apply foldl_ext_in. intros [m acc] [h info] Hin.
        destruct (Hsame h info Hin) as [Hdpi Hconv].
        unfold monitor_iteration. simpl.
        fold (bounds_width info) (bounds_height info).
        by rewrite Hdpi, Hconv. }
      by rewrite Hpid, (parameters_file_folder _ _ Hfolder),
        (switch_calls_process_dpi _ _ w Hproc).
  - by rewrite !Save_no_identity.
Qed.

Lemma Save_monitors_depends_on_witness :
  Save Sample.declared Sample.desk Sample.world =
    Save Sample.declared Sample.desk_by_window Sample.world.
Proof.
  apply Save_monitors_depends_on; try reflexivity.
  intros h info Hin. simpl in Hin.
  apply elem_of_cons in Hin as [Heq|Hin]; [by simplify_eq|].
  apply elem_of_cons in Hin as [Heq|Hin]; [by simplify_eq|].
  by apply elem_of_nil in Hin.
Defined.

(** ** The parameter file *)



(** ** The serialised records *)

(** [ToJson] loses nothing: two monitor records, or two argument records,
    with the same JSON are the same record; and the array of an argument
    record has one object for each monitor record. *)
Theorem ToJson_faithful :
  (∀ m1 m2,
     JsonUtils.MonitorInfo_ToJson m1 = JsonUtils.MonitorInfo_ToJson m2 → m1 = m2) ∧
  (∀ a1 a2,
     JsonUtils.EditorArgs_ToJson a1 = JsonUtils.EditorArgs_ToJson a2 → a1 = a2) ∧
  (∀ a, ∃ items,
     JsonUtils.EditorArgs_ToJson a =
       JsonObject
         [ (EditorParametersIds.ProcessId, JsonNumber (JsonUtils.processId a));
           (EditorParametersIds.SpanZonesAcrossMonitors,
            JsonBoolean (JsonUtils.spanZonesAcrossMonitors a));
           (EditorParametersIds.Monitors, JsonArray items) ] ∧
     length items = length (JsonUtils.monitors a) ∧
     ∀ i m, JsonUtils.monitors a !! i = Some m →
            items !! i = Some (JsonUtils.MonitorInfo_ToJson m)).
Proof.
  split_and!.
  - intros m1 m2. apply MonitorInfo_ToJson_inj.
  - intros a1 a2. apply EditorArgs_ToJson_inj.
  - intros a. exists (JsonUtils.MonitorInfo_ToJson <$> JsonUtils.monitors a).
    split_and!.
    + apply EditorArgs_ToJson_eq.
    + apply length_fmap.
    + intros i m Hi. by rewrite list_lookup_fmap, Hi.
Qed.

(** ** The switch of the executor's thread *)

(** Once the identity is known, the first task of the call, and nothing
    else in it, changes a DPI state: it sets the awareness and then the
    hosting behaviour of the executor's thread, before any enumeration,
    and that thread ends DPI-unaware with mixed hosting whatever state the
    process gives to new threads. *)
Theorem Save_mode_switch d os w vd :
  currentVirtualDesktopId os = Some vd →
  take 4 (new_calls d os w) = switch_calls os w ∧
  filter (λ e, is_dpi_switch (ev_call e) = true) (new_calls d os w) =
    [ {| ev_call := CallSetThreadDpiAwarenessContext DPI_AWARENESS_CONTEXT_UNAWARE;
         ev_context := DpiUnawareThread; ev_dpi := process_dpi os |};
      {| ev_call := CallSetThreadDpiHostingBehavior DPI_HOSTING_BEHAVIOR_MIXED;
         ev_context := DpiUnawareThread;
         ev_dpi := {| awareness := DPI_AWARENESS_CONTEXT_UNAWARE;
                      hosting := hosting (process_dpi os) |} |} ] ∧
  filter (λ e, is_enumeration (ev_call e) = true) (switch_calls os w) = [] ∧
  worker_dpi (Save d os w).2 = unaware_mixed.
Proof.
  intros Hvd. rewrite new_calls_cases, Hvd. split_and!.
  - by destruct (settings_spanZonesAcrossMonitors os).
  - by destruct (settings_spanZonesAcrossMonitors os).
  - done.
  - destruct (settings_spanZonesAcrossMonitors os) eqn:Hspan.
    + by rewrite (Save_spanned d os w vd).
    + destruct (decide (select_target os = 0)) as [Ht|Ht].
      * by rewrite (Save_no_target d os w vd).
      * by rewrite (Save_monitors d os w vd).
Qed.

Lemma Save_mode_switch_witness :
  worker_dpi (Save Sample.declared Sample.desk Sample.world).2 = unaware_mixed.
Proof.
  apply (Save_mode_switch Sample.declared Sample.desk Sample.world
           Sample.virtual_desktop).
  reflexivity.
Defined.
